(** * PoliticalEconomicalAnalyser: the caption / transcription pipeline of main.py

    A shallow embedding of [src/main.py].  The program is a batch driver over
    external collaborators (YouTube search, the transcript API, yt-dlp,
    Whisper, langdetect, Google Translate, the file system).  The
    collaborators are taken as an arbitrary [World]: every call may return a
    value or raise, and may change the collaborator state [Env].  The
    program's own control flow (the [try]/[except] of [get_captions], the
    truthiness test and the two branches of [run_pipeline], the [raise] of
    [transcribe_audio], the loop and the final dump) is translated as written,
    in a state-and-exception monad whose state also records the trace of
    observable events.

    The module-level initialisation (loading the environment, creating the
    audio directory, building the API client, loading the Whisper model)
    runs before [run_pipeline] and is not part of the model; [tqdm] only
    wraps the iteration over the candidates. *)

From stdpp Require Import base option list strings gmap.

Open Scope string_scope.
Open Scope list_scope.

(** ** Python string primitives used by main.py *)

Module Py.

(** [s.split(sep)] for a non-empty separator: a left-to-right scan for
    non-overlapping occurrences.  [skip] counts the characters of a matched
    separator still to be dropped, [cur] is the piece being built. *)
Fixpoint split_from (sep : string) (skip : nat) (cur s : string) : list string :=
  match s with
  | EmptyString => [cur]
  | String c s' =>
      match skip with
      | S k => split_from sep k cur s'
      | O =>
          if String.prefix sep s
          then cur :: split_from sep (String.length sep - 1) "" s'
          else split_from sep 0 (cur +:+ String c "") s'
      end
  end.

Definition split (sep s : string) : list string := split_from sep 0 "" s.

(** [sep in s] *)
Fixpoint contains (sep s : string) : bool :=
  String.prefix sep s ||
  match s with
  | EmptyString => false
  | String _ s' => contains sep s'
  end.

(** [sep.join(items)] *)
Fixpoint join (sep : string) (items : list string) : string :=
  match items with
  | [] => ""
  | x :: rest =>
      match rest with
      | [] => x
      | _ :: _ => x +:+ sep +:+ join sep rest
      end
  end.

(** [s.replace(old, new)] for a non-empty [old]: every non-overlapping
    occurrence, left to right. *)
Definition replace (old new s : string) : string := join new (split old s).

(** [s.startswith(p)], [s.endswith(p)] *)
Definition startswith (s p : string) : bool := String.prefix p s.
Definition endswith (s p : string) : bool :=
  String.prefix (String.rev p) (String.rev s).

(** [os.path.join(a, b)] of posixpath: an absolute second component
    discards the first. *)
Definition os_path_join (a b : string) : string :=
  if startswith b "/" then b
  else if (String.eqb a "" || endswith a "/")%bool then a +:+ b
  else a +:+ "/" +:+ b.

(** Truthiness of a list: [if xs:] *)
Definition truthy_list {A} (xs : list A) : bool :=
  match xs with [] => false | _ :: _ => true end.

End Py.

(** ** Data *)

(** An item of the search response: [v["id"]["videoId"]] and the fields of
    [v["snippet"]] the pipeline reads. *)
Record SearchItem := {
  videoId : string;
  snippet_title : string;
  snippet_description : string;
  snippet_publishedAt : string;
}.

(** A caption segment: the dict of the transcript API, of which the
    pipeline reads [c["text"]]. *)
Record Segment := { seg_text : string }.

(** A track of the transcript API. *)
Record Transcript := {
  tr_video_id : string;
  language_code : string;
  is_generated : bool;
}.

(** The object returned by [YouTubeTranscriptApi.list_transcripts]: two
    dicts from language code to track. *)
Record TranscriptList := {
  tl_video_id : string;
  manually_created_transcripts : gmap string Transcript;
  generated_transcripts : gmap string Transcript;
}.

(** The dict appended to [results]. *)
Record ResultRecord := {
  video_id : string;
  title : string;
  published : string;
  source : string;
  url : string;
  content_en : string;
}.

(** [ydl_opts] of [transcribe_audio]. *)
Record YdlOpts := {
  format : string;
  outtmpl : string;
  preferredcodec : string;
  preferredquality : string;
  quiet : bool;
  player_client : list string;
  concurrent_fragment_downloads : nat;
}.

(** Python exceptions, all of them instances of [Exception]. *)
Inductive exn :=
  | NoTranscriptFound (vid : string) (langs : list string)
  | TranscriptsDisabled (vid : string)
  | RuntimeError (msg : string)
  | IndexError
  | OtherException (cls msg : string).

(** The result of a call: a value or a raised exception. *)
Inductive outcome (A : Type) :=
  | Ret (a : A)
  | Raise (e : exn).
Arguments Ret {A} a.
Arguments Raise {A} e.

Definition is_ret {A} (o : outcome A) : bool :=
  match o with Ret _ => true | Raise _ => false end.

(** Observable events, in the order the program causes them.
    [EnterTranscribeAudio] is a ghost event marking a call of
    [transcribe_audio]. *)
Inductive event :=
  | Stdout (line : string)
  | SearchExecute
  | ListTranscripts (vid : string)
  | Fetch (t : Transcript)
  | EnterTranscribeAudio (video_url : string)
  | Download (opts : YdlOpts) (urls : list string)
  | WhisperTranscribe (path task : string) (fp16 : bool)
  | Detect (text : string)
  | Translate (src tgt text : string)
  | JsonDump (path : string) (results : list ResultRecord).

Definition is_json_dump (ev : event) : bool :=
  match ev with JsonDump _ _ => true | _ => false end.

Definition is_enter_transcribe (ev : event) : bool :=
  match ev with EnterTranscribeAudio _ => true | _ => false end.

(** ** The collaborators *)

(** Every external call takes the collaborator state and returns an
    outcome and the next state; nothing else is assumed of them. *)
Record World (Env : Type) := {
  search_execute : Env -> outcome (list SearchItem) * Env;
  api_list_transcripts : string -> Env -> outcome TranscriptList * Env;
  transcript_fetch : Transcript -> Env -> outcome (list Segment) * Env;
  ydl_download : YdlOpts -> list string -> Env -> outcome unit * Env;
  os_path_exists : string -> Env -> bool;
  model_transcribe : string -> string -> bool -> Env -> outcome string * Env;
  detect : string -> Env -> outcome string * Env;
  translator_translate : string -> string -> string -> Env -> outcome string * Env;
  open_and_dump : string -> list ResultRecord -> Env -> outcome unit * Env;
}.
Arguments search_execute {Env} _ _.
Arguments api_list_transcripts {Env} _ _ _.
Arguments transcript_fetch {Env} _ _ _.
Arguments ydl_download {Env} _ _ _ _.
Arguments os_path_exists {Env} _ _ _.
Arguments model_transcribe {Env} _ _ _ _ _.
Arguments detect {Env} _ _ _.
Arguments translator_translate {Env} _ _ _ _ _.
Arguments open_and_dump {Env} _ _ _ _.

(** [TranscriptList._find_transcript] of youtube_transcript_api: the first
    requested language found in one of the dicts, [NoTranscriptFound]
    otherwise. *)
Fixpoint lookup_dicts (language_code : string) (dicts : list (gmap string Transcript))
  : option Transcript :=
  match dicts with
  | [] => None
  | d :: ds =>
      match d !! language_code with
      | Some t => Some t
      | None => lookup_dicts language_code ds
      end
  end.

Fixpoint find_in_dicts (language_codes : list string) (dicts : list (gmap string Transcript))
  : option Transcript :=
  match language_codes with
  | [] => None
  | c :: cs =>
      match lookup_dicts c dicts with
      | Some t => Some t
      | None => find_in_dicts cs dicts
      end
  end.

Definition find_transcript (tl : TranscriptList) (language_codes : list string)
    (dicts : list (gmap string Transcript)) : outcome Transcript :=
  match find_in_dicts language_codes dicts with
  | Some t => Ret t
  | None => Raise (NoTranscriptFound (tl_video_id tl) language_codes)
  end.

Definition find_manually_created_transcript (tl : TranscriptList)
    (language_codes : list string) : outcome Transcript :=
  find_transcript tl language_codes [manually_created_transcripts tl].

Definition find_generated_transcript (tl : TranscriptList)
    (language_codes : list string) : outcome Transcript :=
  find_transcript tl language_codes [generated_transcripts tl].

(** A [Transcript] object defines neither [__bool__] nor [__len__]: it is
    always true in a condition. *)
Definition truthy_transcript (t : Transcript) : bool := true.

(** [if captions:] on the value returned by [get_captions]: [None] and the
    empty list are false. *)
Definition truthy_captions (captions : option (list Segment)) : bool :=
  match captions with
  | None => false
  | Some segs => Py.truthy_list segs
  end.

(** ** The state-and-exception monad *)

(** The machine state: the collaborators' state and the trace so far. *)
Record State (Env : Type) := mkState {
  env : Env;
  trace : list event;
}.
Arguments mkState {Env} _ _.
Arguments env {Env} _.
Arguments trace {Env} _.

Definition M (Env A : Type) : Type := State Env -> outcome A * State Env.

Section Monad.
Context {Env : Type}.

Definition ret {A} (a : A) : M Env A := fun s => (Ret a, s).

Definition raise {A} (e : exn) : M Env A := fun s => (Raise e, s).

Definition bind {A B} (m : M Env A) (k : A -> M Env B) : M Env B :=
  fun s =>
    match m s with
    | (Ret a, s') => k a s'
    | (Raise e, s') => (Raise e, s')
    end.

(** [try: body except Exception: handler] *)
Definition try_except {A} (body : M Env A) (handler : exn -> M Env A) : M Env A :=
  fun s =>
    match body s with
    | (Ret a, s') => (Ret a, s')
    | (Raise e, s') => handler e s'
    end.

(** Record an event. *)
Definition log (ev : event) : M Env unit :=
  fun s => (Ret tt, mkState (env s) (trace s ++ [ev])%list).

(** A call of a collaborator: the event, then the call. *)
Definition call {A} (ev : event) (f : Env -> outcome A * Env) : M Env A :=
  fun s =>
    let '(o, e') := f (env s) in
    (o, mkState e' (trace s ++ [ev])%list).

(** A read of the collaborator state. *)
Definition query {A} (f : Env -> A) : M Env A := fun s => (Ret (f (env s)), s).

(** A pure library call that may raise. *)
Definition lift {A} (o : outcome A) : M Env A := fun s => (o, s).

Definition print (line : string) : M Env unit := log (Stdout line).
End Monad.

Declare Scope py_scope.
Delimit Scope py_scope with py.
Notation "x <- m ;; k" := (bind m (fun x => k))
  (at level 100, m at next level, right associativity) : py_scope.
Notation "m ;;; k" := (bind m (fun _ => k))
  (at level 100, right associativity) : py_scope.
Open Scope py_scope.

(** ** main.py *)

Definition AUDIO_DIR : string := "audio".

Definition OUTPUT_FILE : string := "sri_lanka_political_economic_text.json".

(** [xs[-1]] *)
Definition index_last {Env A} (xs : list A) : M Env A :=
  match last xs with
  | Some x => ret x
  | None => raise IndexError
  end.

Section Pipeline.
Context {Env : Type} (W : World Env).

(** [search_videos]: [request.execute()["items"]] *)
Definition search_videos : M Env (list SearchItem) :=
  call SearchExecute (search_execute W).

(** [get_captions] *)
Definition get_captions (video_id : string) : M Env (option (list Segment)) :=
  try_except
    (transcripts <- call (ListTranscripts video_id) (api_list_transcripts W video_id) ;;
     print "transcripts" ;;;
     t_si <- lift (find_manually_created_transcript transcripts ["si"]) ;;
     if truthy_transcript t_si then
       t <- lift (find_manually_created_transcript transcripts ["si"]) ;;
       segs <- call (Fetch t) (transcript_fetch W t) ;;
       ret (Some segs)
     else
       t_en <- lift (find_manually_created_transcript transcripts ["en"]) ;;
       if truthy_transcript t_en then
         t <- lift (find_manually_created_transcript transcripts ["en"]) ;;
         segs <- call (Fetch t) (transcript_fetch W t) ;;
         ret (Some segs)
       else
         t <- lift (find_generated_transcript transcripts ["si"; "en"]) ;;
         segs <- call (Fetch t) (transcript_fetch W t) ;;
         ret (Some segs))
    (fun _ =>
       print "No captions found" ;;;
       ret None).

(** [transcribe_audio] *)
Definition transcribe_audio (video_url : string) : M Env string :=
  log (EnterTranscribeAudio video_url) ;;;
  video_id <- index_last (Py.split "v=" video_url) ;;
  let audio_path := Py.os_path_join AUDIO_DIR (video_id +:+ ".wav") in
  let ydl_opts := {|
    format := "bestaudio/best";
    outtmpl := Py.replace ".wav" ".%(ext)s" audio_path;
    preferredcodec := "wav";
    preferredquality := "192";
    quiet := true;
    player_client := ["android"];
    concurrent_fragment_downloads := 1;
  |} in
  call (Download ydl_opts [video_url]) (ydl_download W ydl_opts [video_url]) ;;;
  present <- query (os_path_exists W audio_path) ;;
  if negb present then
    raise (RuntimeError ("Audio file not created: " +:+ audio_path))
  else
    text <- call (WhisperTranscribe audio_path "translate" false)
              (model_transcribe W audio_path "translate" false) ;;
    ret text.

(** [normalize_text] *)
Definition normalize_text (text : string) : M Env string :=
  lang <- call (Detect text) (detect W text) ;;
  if String.eqb lang "si" then
    call (Translate "si" "en" text) (translator_translate W "si" "en" text)
  else
    ret text.

(** The body of the [for] loop of [run_pipeline], on the list [results]
    it appends to. *)
Definition process_video (results : list ResultRecord) (v : SearchItem)
  : M Env (list ResultRecord) :=
  let video_id := videoId v in
  let title := snippet_title v in
  let description := snippet_description v in
  let url := "https://www.youtube.com/watch?v=" +:+ video_id in
  captions <- get_captions video_id ;;
  text <- (if truthy_captions captions then
             ret (Py.join " " (seg_text <$> default [] captions))
           else
             text <- transcribe_audio url ;;
             print ("⚠ No captions for video " +:+ url +:+ ", skipping transcription") ;;;
             ret text) ;;
  text_en <- normalize_text text ;;
  ret (results ++ [{|
    video_id := video_id;
    title := title;
    published := snippet_publishedAt v;
    source := "YouTube";
    url := url;
    content_en := text_en;
  |}])%list.

(** [for v in tqdm(videos): ...] *)
Fixpoint for_videos (videos : list SearchItem) (results : list ResultRecord)
  : M Env (list ResultRecord) :=
  match videos with
  | [] => ret results
  | v :: rest =>
      results' <- process_video results v ;;
      for_videos rest results'
  end.

(** [run_pipeline] *)
Definition run_pipeline : M Env unit :=
  videos <- search_videos ;;
  results <- for_videos videos [] ;;
  call (JsonDump OUTPUT_FILE results) (open_and_dump W OUTPUT_FILE results) ;;;
  print "✔ Data extraction complete".
End Pipeline.

(** ** The spec's words *)

(** The spec's description of the caption text: the segments' texts in
    their order, a single space between two consecutive ones, built left to
    right. *)
Definition spaced_concat (texts : list string) : string :=
  match texts with
  | [] => ""
  | t :: ts => fold_left (fun acc x => acc +:+ " " +:+ x) ts t
  end.

(** The canonical URL the orchestrator builds. *)
Definition watch_url (video_id : string) : string :=
  "https://www.youtube.com/watch?v=" +:+ video_id.

(** A record is the record of a candidate: every field but [content_en]
    is copied or derived from it. *)
Definition record_of (r : ResultRecord) (v : SearchItem) : Prop :=
  video_id r = videoId v /\
  title r = snippet_title v /\
  published r = snippet_publishedAt v /\
  source r = "YouTube" /\
  url r = watch_url (videoId v).

(** ** A concrete world

    A small deterministic world on which the statements below are run:
    the video ["siManual"] has manual tracks in both languages and a
    generated one, ["enManual"] only a manual English track, ["genOnly"]
    only a generated Sinhala track, ["emptySi"] a manual Sinhala track
    without segments; every other video has captions disabled.  Audio is
    downloaded for every video but ["noAudio0000"] and ["/x"]. *)

Definition track (vid lang : string) (gen : bool) : Transcript :=
  {| tr_video_id := vid; language_code := lang; is_generated := gen |}.

Definition demo_list_transcripts (vid : string) : outcome TranscriptList :=
  if String.eqb vid "siManual" then
    Ret {| tl_video_id := vid;
           manually_created_transcripts :=
             {[ "si" := track vid "si" false; "en" := track vid "en" false ]};
           generated_transcripts := {[ "si" := track vid "si" true ]} |}
  else if String.eqb vid "enManual" then
    Ret {| tl_video_id := vid;
           manually_created_transcripts := {[ "en" := track vid "en" false ]};
           generated_transcripts := ∅ |}
  else if String.eqb vid "genOnly" then
    Ret {| tl_video_id := vid;
           manually_created_transcripts := ∅;
           generated_transcripts := {[ "si" := track vid "si" true ]} |}
  else if String.eqb vid "emptySi" then
    Ret {| tl_video_id := vid;
           manually_created_transcripts := {[ "si" := track vid "si" false ]};
           generated_transcripts := ∅ |}
  else Raise (TranscriptsDisabled vid).

Definition demo_fetch (t : Transcript) : outcome (list Segment) :=
  if String.eqb (tr_video_id t) "emptySi" then Ret []
  else if is_generated t then Ret [ {| seg_text := "auto text" |} ]
  else if String.eqb (language_code t) "si" then
    Ret [ {| seg_text := "a" |}; {| seg_text := "b" |}; {| seg_text := "c" |} ]
  else Ret [ {| seg_text := "hello" |}; {| seg_text := "world" |} ].

Definition demo_exists (path : string) : bool :=
  negb (String.eqb path "audio/noAudio0000.wav" || String.eqb path "/x.wav").

Definition demo_world (videos : list SearchItem) : World unit := {|
  search_execute := fun e => (Ret videos, e);
  api_list_transcripts := fun vid e => (demo_list_transcripts vid, e);
  transcript_fetch := fun t e => (demo_fetch t, e);
  ydl_download := fun _ _ e => (Ret tt, e);
  os_path_exists := fun path _ => demo_exists path;
  model_transcribe := fun _ _ _ e => (Ret "parliament convenes today", e);
  detect := fun text e => (Ret (if String.eqb text "a b c" then "si" else "en"), e);
  translator_translate := fun _ _ text e => (Ret ("[en] " +:+ text), e);
  open_and_dump := fun _ _ e => (Ret tt, e);
|}.

Definition candidate (vid : string) : SearchItem := {|
  videoId := vid;
  snippet_title := "title of " +:+ vid;
  snippet_description := "";
  snippet_publishedAt := "2026-01-01T00:00:00Z";
|}.

Definition s0 : State unit := mkState tt [].

(** Lines 71-72 and 74-98 of [transcribe_audio] as functions of the URL:
    the local identifier, the path of the expected audio artifact, and the
    download options. *)
Definition local_video_id (video_url : string) : string :=
  default "" (last (Py.split "v=" video_url)).

Definition audio_path (video_url : string) : string :=
  Py.os_path_join AUDIO_DIR (local_video_id video_url +:+ ".wav").

Definition ydl_opts (video_url : string) : YdlOpts := {|
  format := "bestaudio/best";
  outtmpl := Py.replace ".wav" ".%(ext)s" (audio_path video_url);
  preferredcodec := "wav";
  preferredquality := "192";
  quiet := true;
  player_client := ["android"];
  concurrent_fragment_downloads := 1;
|}.

(** The record appended for a candidate with normalized text [text_en]. *)
Definition result_record (v : SearchItem) (text_en : string) : ResultRecord := {|
  video_id := videoId v;
  title := snippet_title v;
  published := snippet_publishedAt v;
  source := "YouTube";
  url := watch_url (videoId v);
  content_en := text_en;
|}.

(** The message printed on the fallback path. *)
Definition fallback_message (url : string) : string :=
  "⚠ No captions for video " +:+ url +:+ ", skipping transcription".

Definition DONE_MESSAGE : string := "✔ Data extraction complete".

(** ** Trace predicates *)

(** [emits P m]: from every state, [m] only extends the trace, and by
    events that satisfy [P]. *)
Definition emits {Env A} (P : event -> Prop) (m : M Env A) : Prop :=
  forall s, exists new, trace (m s).2 = trace s ++ new /\ Forall P new.

(** The events of the caption resolver, of the text normalizer, and of
    the processing of one candidate. *)
Definition caption_event (ev : event) : Prop :=
  match ev with
  | ListTranscripts _ | Fetch _ | Stdout _ => True
  | _ => False
  end.

Definition normalize_event (ev : event) : Prop :=
  match ev with
  | Detect _ | Translate _ _ _ => True
  | _ => False
  end.

Definition item_event (ev : event) : Prop :=
  match ev with
  | SearchExecute | JsonDump _ _ => False
  | _ => True
  end.

(** A world whose downloader and language detector fail. *)
Definition broken_world : World unit := {|
  search_execute := fun e => (Ret [], e);
  api_list_transcripts := fun vid e => (demo_list_transcripts vid, e);
  transcript_fetch := fun t e => (demo_fetch t, e);
  ydl_download := fun _ _ e => (Raise (OtherException "DownloadError" "video unavailable"), e);
  os_path_exists := fun _ _ => false;
  model_transcribe := fun _ _ _ e => (Ret "", e);
  detect := fun _ e => (Raise (OtherException "LangDetectException" "No features in text."), e);
  translator_translate := fun _ _ text e => (Ret text, e);
  open_and_dump := fun _ _ e => (Ret tt, e);
|}.


Definition is_search (ev : event) : bool :=
  match ev with SearchExecute => true | _ => false end.

(** [no_sep_start sep cur s]: in the string [cur +:+ s], no occurrence of
    [sep] begins inside [cur]. *)
Fixpoint no_sep_start (sep cur s : string) : Prop :=
  match cur with
  | EmptyString => True
  | String _ cur' =>
      String.prefix sep (cur +:+ s) = false /\ no_sep_start sep cur' s
  end.

(** The events the loop body can cause for the candidate [v]. *)
Definition loop_body_event (v : SearchItem) (ev : event) : Prop :=
  match ev with
  | ListTranscripts vid => vid = videoId v
  | Stdout line =>
      line = "transcripts" \/ line = "No captions found" \/
      line = fallback_message (watch_url (videoId v))
  | Fetch _ => True
  | EnterTranscribeAudio video_url => video_url = watch_url (videoId v)
  | Download opts urls =>
      opts = ydl_opts (watch_url (videoId v)) /\ urls = [watch_url (videoId v)]
  | WhisperTranscribe path task fp16 =>
      path = audio_path (watch_url (videoId v)) /\ task = "translate" /\ fp16 = false
  | Detect _ => True
  | Translate src tgt _ => src = "si" /\ tgt = "en"
  | SearchExecute | JsonDump _ _ => False
  end.

(** * Properties *)

(** ** Strings *)

(** The primitives on the strings main.py applies them to. *)
Example split_watch_url_abc :
  Py.split "v=" "https://www.youtube.com/watch?v=abc"
  = ["https://www.youtube.com/watch?"; "abc"].
Proof. reflexivity. Qed.

Example split_every_occurrence : Py.split "v=" "v=av=" = [""; "a"; ""].
Proof. reflexivity. Qed.

Example replace_wav_by_template :
  Py.replace ".wav" ".%(ext)s" "audio/abc.wav" = "audio/abc.%(ext)s".
Proof. reflexivity. Qed.

Example os_path_join_relative : Py.os_path_join "audio" "abc.wav" = "audio/abc.wav".
Proof. reflexivity. Qed.

Example os_path_join_absolute : Py.os_path_join "audio" "/abc.wav" = "/abc.wav".
Proof. reflexivity. Qed.

Lemma string_app_cons (c : Ascii.ascii) (a b : string) :
  String c a +:+ b = String c (a +:+ b).
Proof. reflexivity. Qed.

Lemma string_app_nil_l (s : string) : "" +:+ s = s.
Proof. reflexivity. Qed.

Lemma string_app_nil_r (s : string) : s +:+ "" = s.
Proof.
  induction s as [|c s IH]; [reflexivity|].
  now rewrite string_app_cons, IH.
Qed.

Lemma string_app_assoc (a b c : string) : (a +:+ b) +:+ c = a +:+ (b +:+ c).
Proof.
  induction a as [|x a IH]; [reflexivity|].
  now rewrite !string_app_cons, IH.
Qed.

Lemma prefix_empty (s : string) : String.prefix "" s = true.
Proof. now destruct s. Qed.

(** Whether a string starts with a one-character prefix depends on its
    first character only. *)
Lemma prefix_single_head (c a : Ascii.ascii) (x y : string) :
  String.prefix (String c "") (String a x) = String.prefix (String c "") (String a y).
Proof.
  cbn [String.prefix]. destruct (Ascii.ascii_dec c a); [|reflexivity].
  by rewrite !prefix_empty.
Qed.

(** A string without the separator is a single piece. *)
Lemma split_from_no_sep (sep s : string) :
  Py.contains sep s = false ->
  forall cur, Py.split_from sep 0 cur s = [cur +:+ s].
Proof.
  induction s as [|c s IH]; intros Hno cur.
  - simpl. now rewrite string_app_nil_r.
  - cbn [Py.contains] in Hno. apply orb_false_iff in Hno as [Hp Hs].
    cbn [Py.split_from]. rewrite Hp, (IH Hs).
    now rewrite string_app_assoc, string_app_cons.
Qed.

Lemma split_watch_url (vid : string) :
  Py.contains "v=" vid = false ->
  Py.split "v=" (watch_url vid) = ["https://www.youtube.com/watch?"; vid].
Proof.
  intros Hno. unfold Py.split, watch_url.
  cbv [String.append]. cbn. rewrite prefix_empty.
  rewrite (split_from_no_sep _ _ Hno). reflexivity.
Qed.

Lemma join_cons (sep x y : string) (rest : list string) :
  Py.join sep (x :: y :: rest) = x +:+ sep +:+ Py.join sep (y :: rest).
Proof. reflexivity. Qed.

Lemma fold_left_spaced (ts : list string) (a b : string) :
  fold_left (fun acc x => acc +:+ " " +:+ x) ts (a +:+ b)
  = a +:+ fold_left (fun acc x => acc +:+ " " +:+ x) ts b.
Proof.
  revert b. induction ts as [|t ts IH]; intros b; simpl; [reflexivity|].
  now rewrite string_app_assoc, IH.
Qed.

(** Python's join with a space is the spec's spaced concatenation. *)
Lemma join_spaced_concat (texts : list string) :
  Py.join " " texts = spaced_concat texts.
Proof.
  induction texts as [|x [|y rest] IH]; try reflexivity.
  rewrite join_cons, IH. cbn [spaced_concat fold_left].
  now rewrite <- !fold_left_spaced.
Qed.

(** ** The monad *)

Section Verification.
Context {Env : Type} (W : World Env).
Implicit Types (s : State Env) (P Q : event -> Prop).

Lemma bind_ret_run {A B} (m : M Env A) (k : A -> M Env B) s a s' :
  m s = (Ret a, s') -> bind m k s = k a s'.
Proof. intros H. unfold bind. now rewrite H. Qed.

Lemma bind_raise_run {A B} (m : M Env A) (k : A -> M Env B) s e s' :
  m s = (Raise e, s') -> bind m k s = (Raise e, s').
Proof. intros H. unfold bind. now rewrite H. Qed.

Lemma emits_runs {A} P (m : M Env A) s o s' :
  emits P m -> m s = (o, s') ->
  exists new, trace s' = trace s ++ new /\ Forall P new.
Proof. intros Hm Hrun. specialize (Hm s). now rewrite Hrun in Hm. Qed.

Lemma emits_weaken {A} P Q (m : M Env A) :
  (forall ev, P ev -> Q ev) -> emits P m -> emits Q m.
Proof.
  intros HPQ Hm s. destruct (Hm s) as (new & Ht & Hall).
  exists new. split; [done|]. eapply Forall_impl; eauto.
Qed.

Lemma emits_silent {A} P (m : M Env A) :
  (forall s, (m s).2 = s) -> emits P m.
Proof.
  intros H s. exists []. rewrite H, app_nil_r. split; [done | constructor].
Qed.

Lemma emits_ret {A} P (a : A) : emits P (ret (Env:=Env) a).
Proof. now apply emits_silent. Qed.

Lemma emits_raise {A} P e : emits P (raise (Env:=Env) (A:=A) e).
Proof. now apply emits_silent. Qed.

Lemma emits_lift {A} P (o : outcome A) : emits P (lift (Env:=Env) o).
Proof. now apply emits_silent. Qed.

Lemma emits_query {A} P (f : Env -> A) : emits P (query f).
Proof. now apply emits_silent. Qed.

Lemma emits_index_last {A} P (xs : list A) : emits P (index_last (Env:=Env) xs).
Proof. unfold index_last. destruct (last xs); [apply emits_ret | apply emits_raise]. Qed.

Lemma emits_log P ev : P ev -> emits P (log (Env:=Env) ev).
Proof. intros H s. exists [ev]. split; [done | by constructor]. Qed.

Lemma emits_call {A} P ev (f : Env -> outcome A * Env) :
  P ev -> emits P (call ev f).
Proof.
  intros H s. exists [ev]. unfold call. destruct (f (env s)).
  split; [done | by constructor].
Qed.

Lemma emits_bind {A B} P (m : M Env A) (k : A -> M Env B) :
  emits P m -> (forall a, emits P (k a)) -> emits P (bind m k).
Proof.
  intros Hm Hk s. unfold bind.
  destruct (Hm s) as (n1 & Ht1 & H1). destruct (m s) as [[a|e] s1]; simpl in *.
  - destruct (Hk a s1) as (n2 & Ht2 & H2).
    exists (n1 ++ n2). rewrite Ht2, Ht1, app_assoc. split; [done|].
    by apply Forall_app.
  - by exists n1.
Qed.

Lemma emits_try_except {A} P (body : M Env A) (handler : exn -> M Env A) :
  emits P body -> (forall e, emits P (handler e)) -> emits P (try_except body handler).
Proof.
  intros Hm Hk s. unfold try_except.
  destruct (Hm s) as (n1 & Ht1 & H1). destruct (body s) as [[a|e] s1]; simpl in *.
  - by exists n1.
  - destruct (Hk e s1) as (n2 & Ht2 & H2).
    exists (n1 ++ n2). rewrite Ht2, Ht1, app_assoc. split; [done|].
    by apply Forall_app.
Qed.

End Verification.

(** One step of a proof that a computation emits only events of a class. *)
Ltac emits_step :=
  first
    [ apply emits_ret | apply emits_raise | apply emits_lift
    | apply emits_query | apply emits_index_last
    | apply emits_log; exact I | apply emits_call; exact I
    | apply emits_bind; [ | intros ? ]
    | apply emits_try_except; [ | intros ? ]
    | match goal with
      | |- emits _ (if ?b then _ else _) => destruct b
      end ].

(** ** The events of each component *)

Section Components.
Context {Env : Type} (W : World Env).
Implicit Types (s : State Env).

Lemma get_captions_emits vid : emits caption_event (get_captions W vid).
Proof. unfold get_captions, print. repeat emits_step. Qed.

Lemma normalize_text_emits text : emits normalize_event (normalize_text W text).
Proof. unfold normalize_text. repeat emits_step. Qed.

Lemma transcribe_audio_emits video_url : emits item_event (transcribe_audio W video_url).
Proof. unfold transcribe_audio. cbv zeta. repeat emits_step. Qed.

Lemma process_video_emits results v : emits item_event (process_video W results v).
Proof.
  unfold process_video, print. cbv zeta.
  apply emits_bind.
  { eapply emits_weaken; [|apply get_captions_emits]. by intros []. }
  intros captions. apply emits_bind.
  { destruct (truthy_captions captions); [apply emits_ret|].
    apply emits_bind; [apply transcribe_audio_emits|]. intros. repeat emits_step. }
  intros text. apply emits_bind; [|intros; apply emits_ret].
  eapply emits_weaken; [|apply normalize_text_emits]. by intros [].
Qed.

Lemma for_videos_emits videos results : emits item_event (for_videos W videos results).
Proof.
  revert results. induction videos as [|v rest IH]; intros results; simpl.
  - apply emits_ret.
  - apply emits_bind; [apply process_video_emits | intros; apply IH].
Qed.

End Components.

(** ** The pipeline *)

Section Claims.
Context {Env : Type} (W : World Env).
Implicit Types (s : State Env).

Lemma bind_ret_inv {A B} (m : M Env A) (k : A -> M Env B) s b s' :
  bind m k s = (Ret b, s') ->
  exists a s1, m s = (Ret a, s1) /\ k a s1 = (Ret b, s').
Proof.
  unfold bind. destruct (m s) as [[a|e] s1]; intros H; [eauto | discriminate].
Qed.

(** A split is never empty, so [split(...)[-1]] never raises. *)
Lemma split_from_last (sep : string) (s : string) :
  forall skip cur, is_Some (last (Py.split_from sep skip cur s)).
Proof.
  induction s as [|c s IH]; intros skip cur; cbn [Py.split_from]; [by eexists|].
  destruct skip; [|apply IH].
  destruct (String.prefix sep (String c s)); [|apply IH].
  destruct (IH (String.length sep - 1) "") as [x Hx].
  exists x. by rewrite last_cons, Hx.
Qed.

Lemma index_last_split (sep video_url : string) s :
  index_last (Py.split sep video_url) s
  = (Ret (default "" (last (Py.split sep video_url))), s).
Proof.
  unfold index_last, Py.split.
  by destruct (split_from_last sep video_url 0 "") as [x ->].
Qed.

(** [transcribe_audio] in terms of [audio_path] and [ydl_opts]. *)
Lemma transcribe_audio_unfold video_url s :
  transcribe_audio W video_url s =
  (log (EnterTranscribeAudio video_url) ;;;
   call (Download (ydl_opts video_url) [video_url])
     (ydl_download W (ydl_opts video_url) [video_url]) ;;;
   present <- query (os_path_exists W (audio_path video_url)) ;;
   if negb present then
     raise (RuntimeError ("Audio file not created: " +:+ audio_path video_url))
   else
     text <- call (WhisperTranscribe (audio_path video_url) "translate" false)
               (model_transcribe W (audio_path video_url) "translate" false) ;;
     ret text) s.
Proof.
  unfold transcribe_audio, bind, log. cbn.
  by rewrite index_last_split.
Qed.

Lemma bind_assoc_run {A B C} (m : M Env A) (f : A -> M Env B) (g : B -> M Env C) s :
  bind (bind m f) g s = bind m (fun a => bind (f a) g) s.
Proof. unfold bind. by destruct (m s) as [[a|e] s1]. Qed.

Lemma bind_log_trace {B} P ev (k : unit -> M Env B) s :
  emits P (k tt) ->
  exists rest, trace (bind (log ev) k s).2 = trace s ++ ev :: rest.
Proof.
  intros Hk. unfold bind, log.
  destruct (Hk (mkState (env s) (trace s ++ [ev]))) as (rest & Ht & _).
  exists rest. rewrite Ht. simpl. by rewrite <- app_assoc.
Qed.

(** The caption path of the loop body. *)
Lemma process_video_with_captions results v s segs s1 :
  get_captions W (videoId v) s = (Ret (Some segs), s1) ->
  segs <> [] ->
  process_video W results v s =
  (text_en <- normalize_text W (Py.join " " (seg_text <$> segs)) ;;
   ret (results ++ [result_record v text_en])) s1.
Proof.
  intros Hcap Hne. unfold process_video. cbv zeta.
  rewrite (bind_ret_run _ _ _ _ _ Hcap).
  destruct segs as [|seg segs]; [done|]. reflexivity.
Qed.

(** The fallback path of the loop body. *)
Lemma process_video_without_captions results v s captions s1 :
  get_captions W (videoId v) s = (Ret captions, s1) ->
  truthy_captions captions = false ->
  process_video W results v s =
  (text <- (text <- transcribe_audio W (watch_url (videoId v)) ;;
            print (fallback_message (watch_url (videoId v))) ;;;
            ret text) ;;
   text_en <- normalize_text W text ;;
   ret (results ++ [result_record v text_en])) s1.
Proof.
  intros Hcap Hfalse. unfold process_video. cbv zeta.
  rewrite (bind_ret_run _ _ _ _ _ Hcap), Hfalse. reflexivity.
Qed.

(** C5: [normalize_text] returns its input unchanged when the detected
    language is not ["si"], and returns what the translator returns for
    a translation from ["si"] to ["en"] when it is ["si"]. *)
Theorem normalize_text_identity_or_translation text lang s e1 :
  detect W text (env s) = (Ret lang, e1) ->
  (lang <> "si" ->
   normalize_text W text s = (Ret text, mkState e1 (trace s ++ [Detect text]))) /\
  (lang = "si" ->
   forall o e2, translator_translate W "si" "en" text e1 = (o, e2) ->
   normalize_text W text s
   = (o, mkState e2 (trace s ++ [Detect text; Translate "si" "en" text]))).
Proof.
  intros Hdet. unfold normalize_text, bind, call. rewrite Hdet.
  split.
  - intros Hne. apply String.eqb_neq in Hne. by rewrite Hne.
  - intros -> o e2 Htr. cbn. rewrite Htr. by rewrite <- app_assoc.
Qed.

(** C6, amended: when captions are present and not empty, the text handed
    to the normalizer is the segments' text fields joined by a single
    space in segment order; for the segments a, b, c it is exactly
    "a b c". *)
Theorem caption_text_is_space_joined results v s segs s1 :
  get_captions W (videoId v) s = (Ret (Some segs), s1) ->
  segs <> [] ->
  process_video W results v s =
    (text_en <- normalize_text W (Py.join " " (seg_text <$> segs)) ;;
     ret (results ++ [result_record v text_en])) s1 /\
  Py.join " " (seg_text <$> segs) = spaced_concat (seg_text <$> segs) /\
  Py.join " " (seg_text <$> [ {| seg_text := "a" |}; {| seg_text := "b" |};
                              {| seg_text := "c" |} ]) = "a b c".
Proof.
  intros Hcap Hne. split; [by apply process_video_with_captions|].
  split; [apply join_spaced_concat | reflexivity].
Qed.

(** C7, amended: for every candidate for which [get_captions] returns a
    non-empty caption list, processing the candidate never enters
    [transcribe_audio]. *)
Theorem captions_present_no_transcription results v s segs s1 :
  get_captions W (videoId v) s = (Ret (Some segs), s1) ->
  segs <> [] ->
  exists new,
    trace (process_video W results v s).2 = trace s ++ new /\
    Forall (fun ev => is_enter_transcribe ev = false) new.
Proof.
  intros Hcap Hne.
  rewrite (process_video_with_captions _ _ _ _ _ Hcap Hne).
  destruct (emits_runs _ _ _ _ _ (get_captions_emits W (videoId v)) Hcap)
    as (n1 & Ht1 & H1).
  assert (Hrest : emits normalize_event
            (text_en <- normalize_text W (Py.join " " (seg_text <$> segs)) ;;
             ret (results ++ [result_record v text_en]))).
  { apply emits_bind; [apply normalize_text_emits | intros; apply emits_ret]. }
  destruct (Hrest s1) as (n2 & Ht2 & H2).
  exists (n1 ++ n2). rewrite Ht2, Ht1, app_assoc. split; [done|].
  apply Forall_app. split.
  - eapply Forall_impl; [exact H1|]. by intros [].
  - eapply Forall_impl; [exact H2|]. by intros [].
Qed.

(** C9: an empty caption list is treated like [None]: the loop body goes
    on with [transcribe_audio] on the candidate's URL, and no joined text
    is produced. *)
Theorem empty_captions_fall_through results v s captions s1 :
  get_captions W (videoId v) s = (Ret captions, s1) ->
  captions = Some [] \/ captions = None ->
  process_video W results v s =
    (text <- (text <- transcribe_audio W (watch_url (videoId v)) ;;
              print (fallback_message (watch_url (videoId v))) ;;;
              ret text) ;;
     text_en <- normalize_text W text ;;
     ret (results ++ [result_record v text_en])) s1 /\
  exists rest,
    trace (process_video W results v s).2
    = trace s1 ++ EnterTranscribeAudio (watch_url (videoId v)) :: rest.
Proof.
  intros Hcap Hempty.
  assert (Hfalse : truthy_captions captions = false) by (by destruct Hempty as [-> | ->]).
  pose proof (process_video_without_captions results v s captions s1 Hcap Hfalse) as Heq.
  split; [exact Heq|]. rewrite Heq.
  unfold transcribe_audio. rewrite !bind_assoc_run.
  apply (bind_log_trace item_event).
  unfold print. cbv zeta. repeat emits_step.
Qed.

(** C10, amended: for every video id without "v=", the identifier
    [transcribe_audio] derives from the canonical URL is the video id
    itself, and the artifact path is [os.path.join("audio", id + ".wav")];
    this is audio/<id>.wav when the id does not start with "/". *)
Theorem watch_url_round_trip (vid : string) :
  Py.contains "v=" vid = false ->
  local_video_id (watch_url vid) = vid /\
  audio_path (watch_url vid) = Py.os_path_join "audio" (vid +:+ ".wav") /\
  (Py.startswith vid "/" = false ->
   audio_path (watch_url vid) = "audio/" +:+ vid +:+ ".wav").
Proof.
  intros Hno.
  assert (Hid : local_video_id (watch_url vid) = vid).
  { unfold local_video_id. by rewrite (split_watch_url _ Hno). }
  unfold audio_path. rewrite Hid. split; [done|]. split; [done|].
  intros Hslash. unfold Py.os_path_join.
  replace (Py.startswith (vid +:+ ".wav") "/") with false; [reflexivity|].
  unfold Py.startswith in *. destruct vid; [reflexivity|].
  rewrite string_app_cons, (prefix_single_head _ a _ vid). by symmetry.
Qed.

(** *** The caption resolver *)

(** [get_captions] returns either a fetched track or [None]. *)
Lemma get_captions_cases vid s :
  (exists segs s' tl e1 t e2,
      get_captions W vid s = (Ret (Some segs), s') /\
      api_list_transcripts W vid (env s) = (Ret tl, e1) /\
      transcript_fetch W t e1 = (Ret segs, e2)) \/
  (exists s', get_captions W vid s = (Ret None, s')).
Proof.
  unfold get_captions, try_except, bind, call, print, log, lift, ret, truthy_transcript.
  destruct (api_list_transcripts W vid (env s)) as [[tl|e] e1] eqn:Hlist; cbn;
    [|right; eauto].
  destruct (find_manually_created_transcript tl ["si"]) as [t|e]; cbn;
    [|right; eauto].
  destruct (transcript_fetch W t e1) as [[segs|e] e2] eqn:Hfetch; cbn;
    [left | right; eauto].
  do 6 eexists. split; [reflexivity|]. split; [reflexivity | exact Hfetch].
Qed.

(** First priority: a manual Sinhala track is fetched and returned. *)
Lemma get_captions_manual_si vid s tl e1 t segs e2 :
  api_list_transcripts W vid (env s) = (Ret tl, e1) ->
  manually_created_transcripts tl !! "si" = Some t ->
  transcript_fetch W t e1 = (Ret segs, e2) ->
  (get_captions W vid s).1 = Ret (Some segs).
Proof.
  intros Hlist Hsi Hfetch.
  unfold get_captions, try_except, bind, call, print, log, lift, ret, truthy_transcript,
    find_manually_created_transcript, find_transcript.
  rewrite Hlist. cbn. rewrite Hsi. cbn. by rewrite Hfetch.
Qed.

(** Without a manual Sinhala track the first lookup raises
    [NoTranscriptFound], the handler runs, and the other tracks are
    never consulted. *)
Lemma get_captions_no_manual_si vid s tl e1 :
  api_list_transcripts W vid (env s) = (Ret tl, e1) ->
  manually_created_transcripts tl !! "si" = None ->
  get_captions W vid s
  = (Ret None, mkState e1 (trace s ++ [ListTranscripts vid; Stdout "transcripts";
                                       Stdout "No captions found"])).
Proof.
  intros Hlist Hsi.
  unfold get_captions, try_except, bind, call, print, log, lift, ret,
    find_manually_created_transcript, find_transcript.
  rewrite Hlist. cbn. rewrite Hsi. cbn. by rewrite <- !app_assoc.
Qed.

(** C2: [get_captions] always returns and never raises; it returns
    [None] when listing the tracks raises, when no track exists, and when
    fetching raises; a caption list is returned only as the result of a
    fetch that succeeded. *)
Theorem get_captions_absent_never_raises vid s :
  (exists r s', get_captions W vid s = (Ret r, s')) /\
  (forall e e1, api_list_transcripts W vid (env s) = (Raise e, e1) ->
     (get_captions W vid s).1 = Ret None) /\
  (forall tl e1, api_list_transcripts W vid (env s) = (Ret tl, e1) ->
     manually_created_transcripts tl = ∅ -> generated_transcripts tl = ∅ ->
     (get_captions W vid s).1 = Ret None) /\
  (forall tl e1, api_list_transcripts W vid (env s) = (Ret tl, e1) ->
     (forall t, is_ret (transcript_fetch W t e1).1 = false) ->
     (get_captions W vid s).1 = Ret None) /\
  (forall segs, (get_captions W vid s).1 = Ret (Some segs) ->
     exists tl e1 t e2,
       api_list_transcripts W vid (env s) = (Ret tl, e1) /\
       transcript_fetch W t e1 = (Ret segs, e2)).
Proof.
  pose proof (get_captions_cases vid s) as Hcases.
  split; [|split; [|split; [|split]]].
  - destruct Hcases as [(segs & s' & _ & _ & _ & _ & H & _) | (s' & H)]; eauto.
  - intros e e1 Hlist.
    unfold get_captions, try_except, bind, call. by rewrite Hlist.
  - intros tl e1 Hlist Hman _.
    rewrite (get_captions_no_manual_si _ _ _ _ Hlist); [done|].
    by rewrite Hman, lookup_empty.
  - intros tl e1 Hlist Hfail.
    destruct Hcases as [(segs & s' & tl' & e1' & t & e2 & _ & Hl & Hf) | (s' & ->)];
      [|done].
    rewrite Hlist in Hl. injection Hl as <- <-.
    specialize (Hfail t). by rewrite Hf in Hfail.
  - intros segs Hsome.
    destruct Hcases as [(segs' & s' & tl & e1 & t & e2 & Hrun & Hl & Hf) | (s' & Hrun)];
      rewrite Hrun in Hsome; [|done].
    injection Hsome as <-. by exists tl, e1, t, e2.
Qed.

(** *** The audio fallback *)

(** The hard error of [transcribe_audio]. *)
Lemma transcribe_audio_missing_artifact video_url s e1 :
  ydl_download W (ydl_opts video_url) [video_url] (env s) = (Ret tt, e1) ->
  os_path_exists W (audio_path video_url) e1 = false ->
  transcribe_audio W video_url s
  = (Raise (RuntimeError ("Audio file not created: " +:+ audio_path video_url)),
     mkState e1 (trace s ++ [EnterTranscribeAudio video_url;
                             Download (ydl_opts video_url) [video_url]])).
Proof.
  intros Hdl Hex. rewrite transcribe_audio_unfold.
  unfold bind, log, call, query, raise. cbn. rewrite Hdl. cbn. rewrite Hex. cbn.
  by rewrite <- app_assoc.
Qed.

(** *** The loop *)

Lemma for_videos_app pre post results s :
  for_videos W (pre ++ post) results s
  = (r <- for_videos W pre results ;; for_videos W post r) s.
Proof.
  revert results s. induction pre as [|v pre IH]; intros results s.
  - reflexivity.
  - cbn [app for_videos]. unfold bind.
    destruct (process_video W results v s) as [[r|e] s1]; [|reflexivity].
    by rewrite IH.
Qed.

(** An error of the loop body ends the loop: the candidates after it
    are not processed. *)
Lemma for_videos_raise_at pre v post results s results1 s1 e s2 :
  for_videos W pre results s = (Ret results1, s1) ->
  process_video W results1 v s1 = (Raise e, s2) ->
  for_videos W (pre ++ v :: post) results s = (Raise e, s2).
Proof.
  intros Hpre Hv. rewrite for_videos_app, (bind_ret_run _ _ _ _ _ Hpre).
  cbn [for_videos]. by apply bind_raise_run.
Qed.

(** Detection and translation errors are not handled in the loop body. *)
Lemma normalize_text_detect_raises text s e e1 :
  detect W text (env s) = (Raise e, e1) ->
  normalize_text W text s = (Raise e, mkState e1 (trace s ++ [Detect text])).
Proof. intros H. unfold normalize_text, bind, call. by rewrite H. Qed.

Lemma process_video_normalize_raises results v s segs s1 e s2 :
  get_captions W (videoId v) s = (Ret (Some segs), s1) ->
  segs <> [] ->
  normalize_text W (Py.join " " (seg_text <$> segs)) s1 = (Raise e, s2) ->
  process_video W results v s = (Raise e, s2).
Proof.
  intros Hcap Hne Hnorm. rewrite (process_video_with_captions _ _ _ _ _ Hcap Hne).
  by apply bind_raise_run.
Qed.

(** C3: when the captions of a candidate are absent and the audio
    artifact does not exist after the download, [transcribe_audio] raises
    [RuntimeError]; nothing catches it: the loop and [run_pipeline] end
    with that error in the state the failing call left, whatever
    candidates follow. *)
Theorem audio_failure_aborts_batch s pre v post e0 results s1 captions s2 e3 :
  search_execute W (env s) = (Ret (pre ++ v :: post), e0) ->
  for_videos W pre [] (mkState e0 (trace s ++ [SearchExecute])) = (Ret results, s1) ->
  get_captions W (videoId v) s1 = (Ret captions, s2) ->
  truthy_captions captions = false ->
  ydl_download W (ydl_opts (watch_url (videoId v))) [watch_url (videoId v)] (env s2)
    = (Ret tt, e3) ->
  os_path_exists W (audio_path (watch_url (videoId v))) e3 = false ->
  let err := RuntimeError ("Audio file not created: "
                           +:+ audio_path (watch_url (videoId v))) in
  let s3 := mkState e3 (trace s2 ++ [EnterTranscribeAudio (watch_url (videoId v));
              Download (ydl_opts (watch_url (videoId v))) [watch_url (videoId v)]]) in
  transcribe_audio W (watch_url (videoId v)) s2 = (Raise err, s3) /\
  process_video W results v s1 = (Raise err, s3) /\
  for_videos W (v :: post) results s1 = (Raise err, s3) /\
  run_pipeline W s = (Raise err, s3).
Proof.
  intros Hsearch Hpre Hcap Hfalse Hdl Hex err s3.
  pose proof (transcribe_audio_missing_artifact _ _ _ Hdl Hex) as Htr.
  fold err s3 in Htr.
  assert (Hpv : process_video W results v s1 = (Raise err, s3)).
  { rewrite (process_video_without_captions _ _ _ _ _ Hcap Hfalse).
    apply bind_raise_run. by apply bind_raise_run. }
  assert (Hloop : for_videos W (v :: post) results s1 = (Raise err, s3)).
  { cbn [for_videos]. by apply bind_raise_run. }
  repeat split; try done.
  unfold run_pipeline, search_videos.
  erewrite bind_ret_run; [|unfold call; by rewrite Hsearch].
  apply bind_raise_run. rewrite for_videos_app.
  by rewrite (bind_ret_run _ _ _ _ _ Hpre).
Qed.

Lemma item_events_no_dump (new : list event) :
  Forall item_event new -> List.filter is_json_dump new = [].
Proof.
  induction 1 as [|ev new Hev _ IH]; [reflexivity|].
  destruct ev; try done; exact IH.
Qed.

Lemma search_videos_run s o s1 :
  search_videos W s = (o, s1) ->
  trace s1 = trace s ++ [SearchExecute].
Proof.
  unfold search_videos, call. destruct (search_execute W (env s)).
  by intros [= _ <-].
Qed.

(** The search and the loop leave the dumps of the trace as they were. *)
Lemma loop_no_dump s videos s1 o s2 :
  search_videos W s = (Ret videos, s1) ->
  for_videos W videos [] s1 = (o, s2) ->
  List.filter is_json_dump (trace s2) = List.filter is_json_dump (trace s).
Proof.
  intros Hsearch Hloop.
  destruct (emits_runs _ _ _ _ _ (for_videos_emits W videos []) Hloop) as (new & -> & Hnew).
  rewrite (search_videos_run _ _ _ Hsearch), !List.filter_app.
  rewrite (item_events_no_dump _ Hnew). cbn. by rewrite !app_nil_r.
Qed.

(** A run that returns went through the search, the whole loop, the
    dump and the final message. *)
Lemma run_pipeline_ret_inv s s' :
  run_pipeline W s = (Ret tt, s') ->
  exists videos s1 results s2,
    search_videos W s = (Ret videos, s1) /\
    for_videos W videos [] s1 = (Ret results, s2) /\
    trace s' = trace s2 ++ [JsonDump OUTPUT_FILE results; Stdout DONE_MESSAGE].
Proof.
  intros Hrun. unfold run_pipeline in Hrun.
  apply bind_ret_inv in Hrun as (videos & s1 & Hsearch & Hrun).
  apply bind_ret_inv in Hrun as (results & s2 & Hloop & Hrun).
  apply bind_ret_inv in Hrun as ([] & s3 & Hdump & Hprint).
  exists videos, s1, results, s2. repeat split; try done.
  unfold call in Hdump. destruct (open_and_dump W _ _ _) as [o e3].
  injection Hdump as _ <-. injection Hprint as <-. cbn.
  by rewrite <- app_assoc.
Qed.

(** After a loop that returned, the run calls the dump collaborator on
    the loop's results in the state the loop left, and ends as that call
    ends: with the final message when it returns, with its error when it
    raises. *)
Lemma run_pipeline_dump_run s videos s1 results s2 o e3 :
  search_videos W s = (Ret videos, s1) ->
  for_videos W videos [] s1 = (Ret results, s2) ->
  open_and_dump W OUTPUT_FILE results (env s2) = (o, e3) ->
  run_pipeline W s
  = match o with
    | Ret _ =>
        (Ret tt, mkState e3 (trace s2 ++ [JsonDump OUTPUT_FILE results;
                                          Stdout DONE_MESSAGE]))
    | Raise e => (Raise e, mkState e3 (trace s2 ++ [JsonDump OUTPUT_FILE results]))
    end.
Proof.
  intros Hsearch Hloop Hdump. unfold run_pipeline.
  rewrite (bind_ret_run _ _ _ _ _ Hsearch), (bind_ret_run _ _ _ _ _ Hloop).
  unfold bind, call, print, log. rewrite Hdump.
  destruct o as [[]|e]; cbn; [by rewrite <- app_assoc | done].
Qed.

(** C4: a run that returns has written the output file once, after the
    loop over all candidates has completed: it called the dump
    collaborator on the loop's results in the state the loop left, that
    call returned, and the run ends in the state the call left; the trace
    gained that one dump.  A run whose loop (or search) raises ends with
    that error in the state of the failure: the dump collaborator is not
    called and the trace gained no dump.  After a loop that returned, the
    run is the dump call followed by the final message. *)
Theorem output_written_once_after_loop s :
  (forall s', run_pipeline W s = (Ret tt, s') ->
     exists videos s1 results s2,
       search_videos W s = (Ret videos, s1) /\
       for_videos W videos [] s1 = (Ret results, s2) /\
       open_and_dump W OUTPUT_FILE results (env s2) = (Ret tt, env s') /\
       trace s' = trace s2 ++ [JsonDump OUTPUT_FILE results; Stdout DONE_MESSAGE] /\
       List.filter is_json_dump (trace s')
       = List.filter is_json_dump (trace s) ++ [JsonDump OUTPUT_FILE results]) /\
  (forall videos s1 e s2,
     search_videos W s = (Ret videos, s1) ->
     for_videos W videos [] s1 = (Raise e, s2) ->
     run_pipeline W s = (Raise e, s2) /\
     List.filter is_json_dump (trace s2) = List.filter is_json_dump (trace s)) /\
  (forall e s1,
     search_videos W s = (Raise e, s1) ->
     run_pipeline W s = (Raise e, s1) /\
     List.filter is_json_dump (trace s1) = List.filter is_json_dump (trace s)) /\
  (forall videos s1 results s2 o e3,
     search_videos W s = (Ret videos, s1) ->
     for_videos W videos [] s1 = (Ret results, s2) ->
     open_and_dump W OUTPUT_FILE results (env s2) = (o, e3) ->
     run_pipeline W s
     = match o with
       | Ret _ =>
           (Ret tt, mkState e3 (trace s2 ++ [JsonDump OUTPUT_FILE results;
                                             Stdout DONE_MESSAGE]))
       | Raise e => (Raise e, mkState e3 (trace s2 ++ [JsonDump OUTPUT_FILE results]))
       end).
Proof.
  split; [|split; [|split]].
  - intros s' Hrun.
    destruct (run_pipeline_ret_inv _ _ Hrun)
      as (videos & s1 & results & s2 & Hsearch & Hloop & Htrace).
    exists videos, s1, results, s2. split; [done|]. split; [done|]. split.
    + destruct (open_and_dump W OUTPUT_FILE results (env s2)) as [o e3] eqn:Hdump.
      pose proof (run_pipeline_dump_run _ _ _ _ _ _ _ Hsearch Hloop Hdump) as Heq.
      rewrite Hrun in Heq. destruct o as [[]|e]; [|discriminate Heq].
      by injection Heq as ->.
    + split; [done|].
      rewrite Htrace, List.filter_app, (loop_no_dump _ _ _ _ _ Hsearch Hloop).
      reflexivity.
  - intros videos s1 e s2 Hsearch Hloop. split.
    + unfold run_pipeline. rewrite (bind_ret_run _ _ _ _ _ Hsearch).
      by apply bind_raise_run.
    + by apply (loop_no_dump _ _ _ _ _ Hsearch Hloop).
  - intros e s1 Hsearch. split.
    + unfold run_pipeline. by apply bind_raise_run.
    + rewrite (search_videos_run _ _ _ Hsearch), List.filter_app. cbn.
      by rewrite app_nil_r.
  - intros videos s1 results s2 o e3. apply run_pipeline_dump_run.
Qed.

(** The loop body appends the record of its candidate. *)
Lemma process_video_appends results v s results' s' :
  process_video W results v s = (Ret results', s') ->
  exists r, results' = results ++ [r] /\ record_of r v.
Proof.
  unfold process_video. cbv zeta. intros Hrun.
  apply bind_ret_inv in Hrun as (captions & s1 & _ & Hrun).
  apply bind_ret_inv in Hrun as (text & s2 & _ & Hrun).
  apply bind_ret_inv in Hrun as (text_en & s3 & _ & Hrun).
  injection Hrun as <- _. eexists. split; [reflexivity|]. by repeat split.
Qed.

Lemma for_videos_in_order videos results s results' s' :
  for_videos W videos results s = (Ret results', s') ->
  exists new, results' = results ++ new /\ Forall2 record_of new videos.
Proof.
  revert results s. induction videos as [|v rest IH]; intros results s Hrun.
  - injection Hrun as <- _. exists []. by rewrite app_nil_r.
  - cbn [for_videos] in Hrun.
    apply bind_ret_inv in Hrun as (r1 & s1 & Hv & Hrest).
    apply process_video_appends in Hv as (r & -> & Hr).
    apply IH in Hrest as (new & -> & Hnew).
    exists (r :: new). rewrite <- app_assoc. split; [done | by constructor].
Qed.

(** C8: the records appended by the loop, and dumped at the end of the
    run, are the records of the candidates returned by the search, in
    the same order, whichever path each candidate took. *)
Theorem results_in_candidate_order s videos e0 s' :
  search_execute W (env s) = (Ret videos, e0) ->
  run_pipeline W s = (Ret tt, s') ->
  exists results s2,
    for_videos W videos [] (mkState e0 (trace s ++ [SearchExecute])) = (Ret results, s2) /\
    Forall2 record_of results videos /\
    trace s' = trace s2 ++ [JsonDump OUTPUT_FILE results; Stdout DONE_MESSAGE].
Proof.
  intros Hsearch Hrun.
  destruct (run_pipeline_ret_inv _ _ Hrun)
    as (videos' & s1 & results & s2 & Hsearch' & Hloop & Htrace).
  unfold search_videos, call in Hsearch'. rewrite Hsearch in Hsearch'.
  injection Hsearch' as <- <-.
  exists results, s2. split; [done|]. split; [|done].
  apply for_videos_in_order in Hloop as (new & -> & Hnew). exact Hnew.
Qed.
End Claims.

(** ** The statements on the concrete world *)

(** C1: the priority order is not implemented.  For a video with a manual
    English track and no manual Sinhala track, and for a video with only a
    generated track, the first lookup raises [NoTranscriptFound], which the
    handler of [get_captions] turns into [None]: the track that the policy
    selects is never fetched. *)
Theorem get_captions_misses_fallback_tracks :
  (exists tl,
      api_list_transcripts (demo_world []) "enManual" tt = (Ret tl, tt) /\
      manually_created_transcripts tl !! "si" = None /\
      find_manually_created_transcript tl ["en"] = Ret (track "enManual" "en" false) /\
      transcript_fetch (demo_world []) (track "enManual" "en" false) tt
      = (Ret [ {| seg_text := "hello" |}; {| seg_text := "world" |} ], tt)) /\
  get_captions (demo_world []) "enManual" s0
  = (Ret None, mkState tt [ListTranscripts "enManual"; Stdout "transcripts";
                           Stdout "No captions found"]) /\
  (exists tl,
      api_list_transcripts (demo_world []) "genOnly" tt = (Ret tl, tt) /\
      manually_created_transcripts tl = ∅ /\
      find_generated_transcript tl ["si"; "en"] = Ret (track "genOnly" "si" true) /\
      transcript_fetch (demo_world []) (track "genOnly" "si" true) tt
      = (Ret [ {| seg_text := "auto text" |} ], tt)) /\
  get_captions (demo_world []) "genOnly" s0
  = (Ret None, mkState tt [ListTranscripts "genOnly"; Stdout "transcripts";
                           Stdout "No captions found"]).
Proof.
  split; [eexists; split; [reflexivity|]; by vm_compute|].
  split; [by vm_compute|].
  split; [eexists; split; [reflexivity|]; by vm_compute|].
  by vm_compute.
Qed.

Lemma get_captions_absent_never_raises_witness :
  (get_captions (demo_world []) "captionsOff" s0).1 = Ret None /\
  (get_captions (demo_world []) "siManual" s0).1
  = Ret (Some [ {| seg_text := "a" |}; {| seg_text := "b" |}; {| seg_text := "c" |} ]).
Proof.
  split.
  - destruct (get_captions_absent_never_raises (demo_world []) "captionsOff" s0)
      as (_ & Hraise & _).
    exact (Hraise (TranscriptsDisabled "captionsOff") tt eq_refl).
  - reflexivity.
Defined.

Lemma audio_failure_aborts_batch_witness :
  run_pipeline
    (demo_world [candidate "siManual"; candidate "noAudio0000"; candidate "enManual"]) s0
  = (Raise (RuntimeError "Audio file not created: audio/noAudio0000.wav"),
     mkState tt
       [SearchExecute;
        ListTranscripts "siManual"; Stdout "transcripts";
        Fetch (track "siManual" "si" false);
        Detect "a b c"; Translate "si" "en" "a b c";
        ListTranscripts "noAudio0000"; Stdout "No captions found";
        EnterTranscribeAudio (watch_url "noAudio0000");
        Download (ydl_opts (watch_url "noAudio0000")) [watch_url "noAudio0000"]]).
Proof.
  edestruct (audio_failure_aborts_batch
               (demo_world [candidate "siManual"; candidate "noAudio0000";
                            candidate "enManual"])
               s0 [candidate "siManual"] (candidate "noAudio0000") [candidate "enManual"])
    as (_ & _ & _ & Hrun).
  - reflexivity.
  - vm_compute. reflexivity.
  - vm_compute. reflexivity.
  - reflexivity.
  - reflexivity.
  - reflexivity.
  - rewrite Hrun. reflexivity.
Defined.

Lemma output_written_once_after_loop_witness :
  (exists results,
      List.filter is_json_dump
        (trace (run_pipeline (demo_world [candidate "siManual"; candidate "enManual"]) s0).2)
      = [JsonDump OUTPUT_FILE results] /\ length results = 2) /\
  List.filter is_json_dump
    (trace (run_pipeline (demo_world [candidate "siManual"; candidate "noAudio0000"]) s0).2)
  = [].
Proof.
  split.
  - destruct (output_written_once_after_loop
                (demo_world [candidate "siManual"; candidate "enManual"]) s0)
      as (Hret & _ & _ & _).
    edestruct Hret as (videos & s1 & results & s2 & Hsearch & Hloop & _ & _ & Hdump).
    { vm_compute. reflexivity. }
    exists results. split; [exact Hdump|].
    injection Hsearch as <- <-.
    vm_compute in Hloop. injection Hloop as <- _. reflexivity.
  - destruct (output_written_once_after_loop
                (demo_world [candidate "siManual"; candidate "noAudio0000"]) s0)
      as (_ & Hraise & _ & _).
    edestruct Hraise as [Hrun Hdump]; [reflexivity | vm_compute; reflexivity |].
    rewrite Hrun. exact Hdump.
Defined.

Lemma normalize_text_identity_or_translation_witness :
  normalize_text (demo_world []) "parliament convenes today" s0
  = (Ret "parliament convenes today", mkState tt [Detect "parliament convenes today"]) /\
  normalize_text (demo_world []) "a b c" s0
  = (Ret "[en] a b c", mkState tt [Detect "a b c"; Translate "si" "en" "a b c"]).
Proof.
  split.
  - apply (normalize_text_identity_or_translation (demo_world [])
             "parliament convenes today" "en" s0 tt eq_refl).
    discriminate.
  - exact (proj2 (normalize_text_identity_or_translation (demo_world [])
                    "a b c" "si" s0 tt eq_refl) eq_refl _ _ eq_refl).
Defined.

Lemma caption_text_is_space_joined_witness :
  process_video (demo_world []) [] (candidate "siManual") s0
  = (Ret [result_record (candidate "siManual") "[en] a b c"],
     mkState tt [ListTranscripts "siManual"; Stdout "transcripts";
                 Fetch (track "siManual" "si" false);
                 Detect "a b c"; Translate "si" "en" "a b c"]).
Proof.
  edestruct (caption_text_is_space_joined (demo_world []) [] (candidate "siManual") s0)
    as (Hrun & _ & _).
  - vm_compute. reflexivity.
  - discriminate.
  - rewrite Hrun. reflexivity.
Defined.

(** C6 as stated fails: for a present caption list without segments the
    text handed to the normalizer is the transcription of the audio, not
    the (empty) join of the segments. *)
Lemma present_empty_captions_text_is_transcription :
  get_captions (demo_world []) "emptySi" s0
  = (Ret (Some []), mkState tt [ListTranscripts "emptySi"; Stdout "transcripts";
                                Fetch (track "emptySi" "si" false)]) /\
  Py.join " " (seg_text <$> []) = "" /\
  process_video (demo_world []) [] (candidate "emptySi") s0
  = (Ret [result_record (candidate "emptySi") "parliament convenes today"],
     mkState tt
       [ListTranscripts "emptySi"; Stdout "transcripts";
        Fetch (track "emptySi" "si" false);
        EnterTranscribeAudio (watch_url "emptySi");
        Download (ydl_opts (watch_url "emptySi")) [watch_url "emptySi"];
        WhisperTranscribe "audio/emptySi.wav" "translate" false;
        Stdout (fallback_message (watch_url "emptySi"));
        Detect "parliament convenes today"]) /\
  process_video (demo_world []) [] (candidate "emptySi") s0
  <> (text_en <- normalize_text (demo_world []) (Py.join " " (seg_text <$> [])) ;;
      ret ([] ++ [result_record (candidate "emptySi") text_en]))
       (mkState tt [ListTranscripts "emptySi"; Stdout "transcripts";
                    Fetch (track "emptySi" "si" false)]).
Proof. repeat split; by vm_compute. Qed.

(** C7 as stated fails: a track without segments is a present result, and
    the loop body enters [transcribe_audio] for it. *)
Lemma present_empty_captions_are_transcribed :
  get_captions (demo_world []) "emptySi" s0
  = (Ret (Some []), mkState tt [ListTranscripts "emptySi"; Stdout "transcripts";
                                Fetch (track "emptySi" "si" false)]) /\
  List.filter is_enter_transcribe
    (trace (process_video (demo_world []) [] (candidate "emptySi") s0).2)
  = [EnterTranscribeAudio (watch_url "emptySi")].
Proof. split; by vm_compute. Qed.

Lemma captions_present_no_transcription_witness :
  exists new,
    trace (process_video (demo_world []) [] (candidate "siManual") s0).2 = trace s0 ++ new /\
    Forall (fun ev => is_enter_transcribe ev = false) new.
Proof.
  eapply (captions_present_no_transcription (demo_world []) [] (candidate "siManual") s0).
  - vm_compute. reflexivity.
  - discriminate.
Defined.

Lemma results_in_candidate_order_witness :
  exists results s2,
    for_videos (demo_world [candidate "siManual"; candidate "genOnly"])
      [candidate "siManual"; candidate "genOnly"] []
      (mkState tt (trace s0 ++ [SearchExecute])) = (Ret results, s2) /\
    Forall2 record_of results [candidate "siManual"; candidate "genOnly"] /\
    trace (run_pipeline (demo_world [candidate "siManual"; candidate "genOnly"]) s0).2
    = trace s2 ++ [JsonDump OUTPUT_FILE results; Stdout DONE_MESSAGE].
Proof.
  eapply (results_in_candidate_order
            (demo_world [candidate "siManual"; candidate "genOnly"]) s0 _ tt).
  - reflexivity.
  - vm_compute. reflexivity.
Defined.

Lemma empty_captions_fall_through_witness :
  exists rest,
    trace (process_video (demo_world []) [] (candidate "emptySi") s0).2
    = [ListTranscripts "emptySi"; Stdout "transcripts"; Fetch (track "emptySi" "si" false)]
      ++ EnterTranscribeAudio (watch_url "emptySi") :: rest.
Proof.
  edestruct (empty_captions_fall_through (demo_world []) [] (candidate "emptySi") s0)
    as (_ & Htrace).
  - vm_compute. reflexivity.
  - left. reflexivity.
  - exact Htrace.
Defined.

(** C10 as stated fails: a video id that starts with "/" is recovered
    from the URL, but [os.path.join] then drops the audio directory. *)
Lemma absolute_video_id_leaves_audio_dir :
  Py.contains "v=" "/x" = false /\
  local_video_id (watch_url "/x") = "/x" /\
  audio_path (watch_url "/x") = "/x.wav" /\
  audio_path (watch_url "/x") <> "audio/" +:+ "/x" +:+ ".wav" /\
  (transcribe_audio (demo_world []) (watch_url "/x") s0).1
  = Raise (RuntimeError "Audio file not created: /x.wav").
Proof. repeat split; by vm_compute. Qed.

Lemma watch_url_round_trip_witness :
  local_video_id (watch_url "dQw4w9WgXcQ") = "dQw4w9WgXcQ" /\
  audio_path (watch_url "dQw4w9WgXcQ") = "audio/dQw4w9WgXcQ.wav".
Proof.
  destruct (watch_url_round_trip "dQw4w9WgXcQ" eq_refl) as (Hid & _ & Hpath).
  split; [exact Hid | exact (Hpath eq_refl)].
Defined.

(** ** End-to-end runs *)

(** A candidate with manual Sinhala captions: the record holds the
    translation of the joined caption text. *)
Example scenario_manual_sinhala :
  (process_video (demo_world []) [] (candidate "siManual") s0).1
  = Ret [result_record (candidate "siManual") "[en] a b c"].
Proof. by vm_compute. Qed.

(** A candidate without captions whose audio is transcribed: the record
    holds the transcription unchanged. *)
Example scenario_audio_fallback :
  (process_video (demo_world []) [] (candidate "captionsOff") s0).1
  = Ret [result_record (candidate "captionsOff") "parliament convenes today"].
Proof. by vm_compute. Qed.

(** * Further properties of the components *)

(** One step of a proof that a computation emits only events of a class,
    the membership of each event being left to [tac]. *)
Ltac emits_with tac :=
  first
    [ apply emits_ret | apply emits_raise | apply emits_lift
    | apply emits_query | apply emits_index_last
    | apply emits_log; tac | apply emits_call; tac
    | apply emits_bind; [ | intros ? ]
    | apply emits_try_except; [ | intros ? ]
    | match goal with
      | |- emits _ (if ?b then _ else _) => destruct b
      end ].

Section Extras.
Context {Env : Type} (W : World Env).
Implicit Types (s : State Env).

(** ** get_captions *)

(** X1: [get_captions] returns a caption list exactly when the listing
    returned, the list has a manually created Sinhala track, and fetching
    that track returned the list; in every other case it returns [None]. *)
Theorem get_captions_some_iff vid s :
  (forall segs,
     (get_captions W vid s).1 = Ret (Some segs) <->
     exists tl e1 t e2,
       api_list_transcripts W vid (env s) = (Ret tl, e1) /\
       manually_created_transcripts tl !! "si" = Some t /\
       transcript_fetch W t e1 = (Ret segs, e2)) /\
  ((get_captions W vid s).1 = Ret None <->
   ~ exists segs tl e1 t e2,
       api_list_transcripts W vid (env s) = (Ret tl, e1) /\
       manually_created_transcripts tl !! "si" = Some t /\
       transcript_fetch W t e1 = (Ret segs, e2)).
Proof.
  assert (Hsome : forall segs,
             (get_captions W vid s).1 = Ret (Some segs) <->
             exists tl e1 t e2,
               api_list_transcripts W vid (env s) = (Ret tl, e1) /\
               manually_created_transcripts tl !! "si" = Some t /\
               transcript_fetch W t e1 = (Ret segs, e2)).
  { intros segs. split.
    - unfold get_captions, try_except, bind, call, print, log, lift, ret,
        truthy_transcript, find_manually_created_transcript, find_transcript.
      destruct (api_list_transcripts W vid (env s)) as [[tl|e] e1]; cbn; [|done].
      destruct (manually_created_transcripts tl !! "si") as [t|] eqn:Hsi; cbn; [|done].
      destruct (transcript_fetch W t e1) as [[segs'|e] e2] eqn:Hfetch; cbn; [|done].
      intros [= <-]. by exists tl, e1, t, e2.
    - intros (tl & e1 & t & e2 & Hlist & Hsi & Hfetch).
      by apply (get_captions_manual_si W vid s tl e1 t segs e2). }
  split; [exact Hsome|]. split.
  - intros Hnone (segs & Hex). apply Hsome in Hex. rewrite Hnone in Hex. discriminate Hex.
  - intros Hno.
    destruct (get_captions_cases W vid s)
      as [(segs & s' & tl & e1 & t & e2 & Hrun & _) | (s' & Hrun)].
    + exfalso. apply Hno. exists segs. apply Hsome. by rewrite Hrun.
    + by rewrite Hrun.
Qed.

(** ** transcribe_audio *)

(** X2: when the download returns and the artifact exists,
    [transcribe_audio] ends as the model call on the artifact ends, in
    translate mode without fp16: it returns the model's text or raises the
    model's error. *)
Theorem transcribe_audio_model_outcome video_url s e1 o e2 :
  ydl_download W (ydl_opts video_url) [video_url] (env s) = (Ret tt, e1) ->
  os_path_exists W (audio_path video_url) e1 = true ->
  model_transcribe W (audio_path video_url) "translate" false e1 = (o, e2) ->
  transcribe_audio W video_url s
  = (o, mkState e2 (trace s ++ [EnterTranscribeAudio video_url;
                                Download (ydl_opts video_url) [video_url];
                                WhisperTranscribe (audio_path video_url) "translate" false])).
Proof.
  intros Hdl Hex Hmodel. rewrite transcribe_audio_unfold.
  unfold bind, log, call, query, ret. cbn. rewrite Hdl. cbn. rewrite Hex. cbn.
  rewrite Hmodel. destruct o; cbn; by rewrite <- !app_assoc.
Qed.

(** X3: [transcribe_audio] always starts the download, and calls the
    model exactly when the download returned and the artifact exists; an
    error of the download is raised unchanged, before any existence check. *)
Theorem transcribe_audio_model_call_iff video_url s o1 e1 :
  ydl_download W (ydl_opts video_url) [video_url] (env s) = (o1, e1) ->
  trace (transcribe_audio W video_url s).2
  = trace s ++ [EnterTranscribeAudio video_url; Download (ydl_opts video_url) [video_url]]
    ++ (if is_ret o1 && os_path_exists W (audio_path video_url) e1
        then [WhisperTranscribe (audio_path video_url) "translate" false] else []) /\
  (forall e, o1 = Raise e ->
     transcribe_audio W video_url s
     = (Raise e, mkState e1 (trace s ++ [EnterTranscribeAudio video_url;
                                         Download (ydl_opts video_url) [video_url]]))).
Proof.
  intros Hdl. rewrite transcribe_audio_unfold.
  unfold bind, log, call, query, ret, raise. cbn. rewrite Hdl.
  destruct o1 as [[]|e]; cbn.
  - split; [|done].
    destruct (os_path_exists W (audio_path video_url) e1); cbn.
    + destruct (model_transcribe W _ _ _ e1) as [[text|e] e2]; cbn;
        by rewrite <- !app_assoc.
    + by rewrite <- !app_assoc.
  - split; [by rewrite <- !app_assoc|]. intros e' [= <-]. by rewrite <- !app_assoc.
Qed.

(** ** normalize_text *)

(** X4: an error of [normalize_text] is the error of the language
    detection, or the error of the translator on a text detected as
    Sinhala; nothing else makes it raise. *)
Theorem normalize_text_error_provenance text s e s' :
  normalize_text W text s = (Raise e, s') ->
  (exists e1, detect W text (env s) = (Raise e, e1)) \/
  (exists e1 e2,
      detect W text (env s) = (Ret "si", e1) /\
      translator_translate W "si" "en" text e1 = (Raise e, e2)).
Proof.
  unfold normalize_text, bind, call, ret.
  destruct (detect W text (env s)) as [[lang|e0] e1]; cbn.
  - destruct (String.eqb_spec lang "si") as [->|Hne]; [|done]. cbn.
    destruct (translator_translate W "si" "en" text e1) as [[t|e0] e2] eqn:Htr;
      [done|].
    intros [= <- <-]. right. by exists e1, e2.
  - intros [= <- <-]. left. by exists e1.
Qed.

(** ** The loop body *)

(** X5: the fallback path end to end.  With falsy captions, a download
    that returns, an existing artifact, a model text and a detected
    language other than Sinhala, the loop body prints the
    "skipping transcription" line after the transcription and appends the
    record whose [content_en] is the model text unchanged. *)
Theorem process_video_audio_path results v s captions s1 e2 text e3 lang e4 :
  get_captions W (videoId v) s = (Ret captions, s1) ->
  truthy_captions captions = false ->
  ydl_download W (ydl_opts (watch_url (videoId v))) [watch_url (videoId v)] (env s1)
    = (Ret tt, e2) ->
  os_path_exists W (audio_path (watch_url (videoId v))) e2 = true ->
  model_transcribe W (audio_path (watch_url (videoId v))) "translate" false e2
    = (Ret text, e3) ->
  detect W text e3 = (Ret lang, e4) ->
  lang <> "si" ->
  process_video W results v s
  = (Ret (results ++ [result_record v text]),
     mkState e4 (trace s1 ++
       [EnterTranscribeAudio (watch_url (videoId v));
        Download (ydl_opts (watch_url (videoId v))) [watch_url (videoId v)];
        WhisperTranscribe (audio_path (watch_url (videoId v))) "translate" false;
        Stdout (fallback_message (watch_url (videoId v)));
        Detect text])).
Proof.
  intros Hcap Hfalse Hdl Hex Hmodel Hdet Hne.
  rewrite (process_video_without_captions W _ _ _ _ _ Hcap Hfalse).
  unfold bind at 1 2. rewrite transcribe_audio_unfold.
  unfold normalize_text, bind, print, log, call, query, ret. cbn.
  rewrite Hdl. cbn. rewrite Hex. cbn. rewrite Hmodel. cbn. rewrite Hdet.
  apply String.eqb_neq in Hne. rewrite Hne. by rewrite <- !app_assoc.
Qed.

(** X6: the caption path end to end.  With a non-empty caption list whose
    joined text is detected as Sinhala, the appended record holds the
    translation of the joined text, not the joined text itself. *)
Theorem process_video_caption_path_translated results v s segs s1 e2 text_en e3 :
  get_captions W (videoId v) s = (Ret (Some segs), s1) ->
  segs <> [] ->
  detect W (Py.join " " (seg_text <$> segs)) (env s1) = (Ret "si", e2) ->
  translator_translate W "si" "en" (Py.join " " (seg_text <$> segs)) e2
    = (Ret text_en, e3) ->
  process_video W results v s
  = (Ret (results ++ [result_record v text_en]),
     mkState e3 (trace s1 ++
       [Detect (Py.join " " (seg_text <$> segs));
        Translate "si" "en" (Py.join " " (seg_text <$> segs))])).
Proof.
  intros Hcap Hne Hdet Htr.
  rewrite (process_video_with_captions W _ _ _ _ _ Hcap Hne).
  unfold normalize_text, bind, call, ret. rewrite Hdet. cbn. rewrite Htr.
  by rewrite <- !app_assoc.
Qed.

(** ** run_pipeline *)

(** X7: an empty search result is not an error: the run dumps the empty
    list to the output file, prints the final message and returns. *)
Theorem run_pipeline_no_candidates s e1 e2 :
  search_execute W (env s) = (Ret [], e1) ->
  open_and_dump W OUTPUT_FILE [] e1 = (Ret tt, e2) ->
  run_pipeline W s
  = (Ret tt, mkState e2 (trace s ++ [SearchExecute; JsonDump OUTPUT_FILE [];
                                     Stdout DONE_MESSAGE])).
Proof.
  intros Hsearch Hdump.
  unfold run_pipeline, search_videos, bind, call, print, log. rewrite Hsearch. cbn.
  rewrite Hdump. cbn. by rewrite <- !app_assoc.
Qed.

(** ** The events of the loop *)

Lemma emits_ext {A} (P : event -> Prop) (m m' : M Env A) :
  (forall s, m s = m' s) -> emits P m' -> emits P m.
Proof. intros Heq Hm s. rewrite Heq. apply Hm. Qed.


(** The loop body for a candidate concerns that candidate only. *)
Lemma process_video_events results v :
  emits (loop_body_event v) (process_video W results v).
Proof.
  unfold process_video. cbv zeta. fold (watch_url (videoId v)).
  apply emits_bind.
  { unfold get_captions, print. repeat emits_with ltac:(cbn; auto). }
  intros captions. apply emits_bind.
  - destruct (truthy_captions captions); [apply emits_ret|].
    apply emits_bind.
    + eapply emits_ext; [apply transcribe_audio_unfold|].
      repeat emits_with ltac:(cbn; auto).
    + intros text. unfold print, fallback_message.
      repeat emits_with ltac:(cbn; auto).
  - intros text. unfold normalize_text. repeat emits_with ltac:(cbn; auto).
Qed.

Lemma for_videos_events videos results :
  emits (fun ev => exists v, In v videos /\ loop_body_event v ev)
    (for_videos W videos results).
Proof.
  revert results. induction videos as [|v rest IH]; intros results; cbn [for_videos].
  - apply emits_ret.
  - apply emits_bind.
    + eapply emits_weaken; [|apply process_video_events].
      intros ev Hev. exists v. split; [by left | exact Hev].
    + intros results'. eapply emits_weaken; [|apply IH].
      intros ev (v' & Hin & Hev). exists v'. split; [by right | exact Hev].
Qed.

Lemma loop_body_event_not_search v ev : loop_body_event v ev -> is_search ev = false.
Proof. by destruct ev. Qed.

Lemma loop_body_event_not_done v ev : loop_body_event v ev -> ev <> Stdout DONE_MESSAGE.
Proof.
  destruct ev; try done. cbn. unfold DONE_MESSAGE, fallback_message.
  intros [-> | [-> | ->]] [= H]; discriminate.
Qed.

(** The tail of [run_pipeline] after the search. *)
Lemma run_pipeline_after_search s o e1 :
  search_execute W (env s) = (o, e1) ->
  run_pipeline W s
  = match o with
    | Ret videos =>
        (results <- for_videos W videos [] ;;
         call (JsonDump OUTPUT_FILE results) (open_and_dump W OUTPUT_FILE results) ;;;
         print DONE_MESSAGE) (mkState e1 (trace s ++ [SearchExecute]))
    | Raise e => (Raise e, mkState e1 (trace s ++ [SearchExecute]))
    end.
Proof.
  intros Hsearch. unfold run_pipeline, search_videos.
  unfold bind at 1. unfold call. rewrite Hsearch. by destruct o.
Qed.

(** X8: the events of a run, after the one search that opens it, are
    events of the loop body of a candidate the search returned (its own id,
    URL, download options and artifact, the model in translate mode without
    fp16, translation from Sinhala to English), the dump to the output
    file, or the final message. *)
Theorem run_pipeline_events s videos e1 :
  search_execute W (env s) = (Ret videos, e1) ->
  exists new,
    trace (run_pipeline W s).2 = trace s ++ SearchExecute :: new /\
    Forall (fun ev =>
              (exists v, In v videos /\ loop_body_event v ev) \/
              (exists results, ev = JsonDump OUTPUT_FILE results) \/
              ev = Stdout DONE_MESSAGE) new.
Proof.
  intros Hsearch. rewrite (run_pipeline_after_search _ _ _ Hsearch).
  match goal with
  | |- context [bind ?m ?k ?st] =>
      assert (Hrest : emits (fun ev =>
                (exists v, In v videos /\ loop_body_event v ev) \/
                (exists results, ev = JsonDump OUTPUT_FILE results) \/
                ev = Stdout DONE_MESSAGE) (bind m k))
  end.
  { apply emits_bind.
    - eapply emits_weaken; [|apply for_videos_events]. intros ev Hev. by left.
    - intros results. unfold print. repeat emits_with ltac:(eauto). }
  destruct (Hrest (mkState e1 (trace s ++ [SearchExecute]))) as (new & Ht & Hnew).
  exists new. split; [|exact Hnew]. rewrite Ht. cbn. by rewrite <- app_assoc.
Qed.

(** X9: every run executes the search exactly once, as its first event,
    whether the run returns or raises. *)
Theorem run_pipeline_searches_once s :
  exists new,
    trace (run_pipeline W s).2 = trace s ++ SearchExecute :: new /\
    List.filter is_search new = [].
Proof.
  destruct (search_execute W (env s)) as [o e1] eqn:Hsearch.
  rewrite (run_pipeline_after_search _ _ _ Hsearch).
  destruct o as [videos|e].
  - match goal with
    | |- context [bind ?m ?k ?st] =>
        assert (Hrest : emits (fun ev => is_search ev = false) (bind m k))
    end.
    { apply emits_bind.
      - eapply emits_weaken; [|apply for_videos_events].
        intros ev (v & _ & Hev). by apply (loop_body_event_not_search v).
      - intros results. unfold print. repeat emits_with ltac:(reflexivity). }
    destruct (Hrest (mkState e1 (trace s ++ [SearchExecute]))) as (new & Ht & Hnew).
    exists new. split; [rewrite Ht; cbn; by rewrite <- app_assoc|].
    clear Ht. induction Hnew as [|ev new Hev _ IH]; [done|]. cbn. by rewrite Hev.
  - exists []. by cbn.
Qed.

(** X10: the final message is printed exactly by the runs that return: a
    run that raises, in the search, in the loop or in the dump, never
    prints it. *)
Theorem completion_message_iff_returns s :
  exists new,
    trace (run_pipeline W s).2 = trace s ++ new /\
    (In (Stdout DONE_MESSAGE) new <-> (run_pipeline W s).1 = Ret tt).
Proof.
  destruct (search_execute W (env s)) as [o e1] eqn:Hsearch.
  rewrite (run_pipeline_after_search _ _ _ Hsearch).
  destruct o as [videos|e]; cbn.
  2: { exists [SearchExecute]. split; [done|]. split; [|done].
       intros [H|[]]. discriminate H. }
  unfold bind, call, print, log.
  destruct (for_videos W videos [] (mkState e1 (trace s ++ [SearchExecute])))
    as [[results|e] s2] eqn:Hloop.
  all: destruct (emits_runs _ _ _ _ _ (for_videos_events videos []) Hloop)
         as (n1 & Ht & Hn1); cbn in Ht.
  all: assert (Hnot : ~ In (Stdout DONE_MESSAGE) n1)
         by (intros Hin; rewrite Forall_forall in Hn1;
             apply list_elem_of_In, Hn1 in Hin as (v & _ & Hev);
             by apply (loop_body_event_not_done v) in Hev).
  - destruct (open_and_dump W OUTPUT_FILE results (env s2)) as [[[]|e] e3]; cbn.
    + exists (SearchExecute :: n1 ++ [JsonDump OUTPUT_FILE results; Stdout DONE_MESSAGE]).
      rewrite Ht. split; [by rewrite <- !app_assoc|]. split; [done|].
      intros _. right. apply in_or_app. right. right. by left.
    + exists (SearchExecute :: n1 ++ [JsonDump OUTPUT_FILE results]).
      rewrite Ht. split; [by rewrite <- !app_assoc|]. split; [|done].
      intros [H|H]; [discriminate H|].
      apply in_app_or in H as [H|[H|[]]]; [done | discriminate H].
  - exists (SearchExecute :: n1). cbn. rewrite Ht. split; [by rewrite <- !app_assoc|].
    split; [|done]. intros [H|H]; [discriminate H | done].
Qed.




End Extras.

(** ** The URL, the identifier and the paths *)

Lemma prefix_cons (a c : Ascii.ascii) (p r : string) :
  String.prefix (String a p) (String c r)
  = if Ascii.ascii_dec a c then String.prefix p r else false.
Proof. reflexivity. Qed.

Lemma prefix_head_ne (a c : Ascii.ascii) (p r : string) :
  a <> c -> String.prefix (String a p) (String c r) = false.
Proof. intros Hne. rewrite prefix_cons. by destruct (Ascii.ascii_dec a c). Qed.

Lemma prefix_of_empty (a : Ascii.ascii) (p : string) : String.prefix (String a p) "" = false.
Proof. reflexivity. Qed.

(** A piece that ends the string holds no separator when none begins in it. *)
Lemma no_sep_start_contains (sep cur : string) :
  sep <> "" -> no_sep_start sep cur "" -> Py.contains sep cur = false.
Proof.
  intros Hsep. induction cur as [|c cur IH]; intros Hno.
  - destruct sep; [done | reflexivity].
  - destruct Hno as [Hp Hrest]. rewrite string_app_nil_r in Hp.
    cbn [Py.contains]. by rewrite Hp, (IH Hrest).
Qed.

Lemma no_sep_start_snoc (sep cur : string) (c : Ascii.ascii) (s : string) :
  no_sep_start sep cur (String c s) ->
  String.prefix sep (String c s) = false ->
  no_sep_start sep (cur +:+ String c "") s.
Proof.
  intros Hno Hp. induction cur as [|d cur IH].
  - split; [exact Hp | exact I].
  - destruct Hno as [Hd Hrest]. rewrite string_app_cons. split; [|by apply IH].
    by rewrite <- string_app_cons, string_app_assoc.
Qed.

(** The last piece of a split holds no separator. *)
Lemma split_from_last_no_sep (sep : string) (s : string) :
  sep <> "" ->
  forall skip cur x,
    (skip = 0 -> no_sep_start sep cur s) ->
    (skip <> 0 -> cur = "") ->
    last (Py.split_from sep skip cur s) = Some x ->
    Py.contains sep x = false.
Proof.
  intros Hsep. induction s as [|c s IH]; intros skip cur x H0 Hskip; cbn [Py.split_from].
  - intros [= <-]. destruct skip as [|k].
    + by apply no_sep_start_contains, H0.
    + rewrite (Hskip ltac:(done)). destruct sep; [done | reflexivity].
  - destruct skip as [|k].
    + destruct (String.prefix sep (String c s)) eqn:Hp.
      * destruct (split_from_last sep s (String.length sep - 1) "") as [y Hy].
        rewrite last_cons, Hy. intros [= <-].
        apply (IH (String.length sep - 1) "" y); [done | done | exact Hy].
      * apply IH; [|done]. intros _. apply no_sep_start_snoc; [by apply H0 | exact Hp].
    + rewrite (Hskip ltac:(done)). apply IH; done.
Qed.

(** X12: the identifier [transcribe_audio] derives from a URL never
    contains "v="; so the identifier derived from the canonical URL of a
    video id is that id exactly when the id contains no "v="; and a URL
    without "v=" is taken whole as the identifier. *)
Theorem local_video_id_round_trip_iff :
  (forall video_url, Py.contains "v=" (local_video_id video_url) = false) /\
  (forall vid, local_video_id (watch_url vid) = vid <-> Py.contains "v=" vid = false) /\
  (forall video_url,
     Py.contains "v=" video_url = false -> local_video_id video_url = video_url).
Proof.
  assert (Hlocal : forall video_url, Py.contains "v=" (local_video_id video_url) = false).
  { intros video_url. unfold local_video_id, Py.split.
    destruct (split_from_last "v=" video_url 0 "") as [x Hx]. rewrite Hx. cbn.
    by apply (split_from_last_no_sep "v=" video_url ltac:(done) 0 "" x). }
  split; [exact Hlocal|]. split.
  - intros vid. split.
    + intros Heq. rewrite <- Heq. apply Hlocal.
    + intros Hno. unfold local_video_id. by rewrite (split_watch_url _ Hno).
  - intros video_url Hno. unfold local_video_id, Py.split.
    by rewrite (split_from_no_sep _ _ Hno).
Qed.

(** A string that ends with ".wav" and holds it nowhere else splits into
    what precedes the ending and the empty string. *)
Lemma wav_border (s : string) :
  s <> "" -> String.prefix ".wav" (s +:+ ".wav") = true -> String.prefix ".wav" s = true.
Proof.
  destruct s as [|c1 [|c2 [|c3 [|c4 s]]]]; intros Hne; [done|..];
    rewrite ?string_app_cons, ?string_app_nil_l, !prefix_cons;
    repeat
      (match goal with
       | |- context [Ascii.ascii_dec ?a ?b] =>
           destruct (Ascii.ascii_dec a b) as [<-|?]; [|done]
       end;
       rewrite ?prefix_cons, ?prefix_of_empty); try done.
  by rewrite !prefix_empty.
Qed.

Lemma split_wav_suffix (vid : string) :
  Py.contains ".wav" vid = false ->
  forall cur, Py.split_from ".wav" 0 cur (vid +:+ ".wav") = [cur +:+ vid; ""].
Proof.
  induction vid as [|c vid IH]; intros Hno cur.
  - rewrite string_app_nil_l, string_app_nil_r. reflexivity.
  - cbn [Py.contains] in Hno. apply orb_false_iff in Hno as [Hp Hrest].
    rewrite string_app_cons. cbn [Py.split_from].
    destruct (String.prefix ".wav" (String c (vid +:+ ".wav"))) eqn:Hp'.
    + rewrite <- string_app_cons in Hp'. apply wav_border in Hp'; [congruence | done].
    + rewrite (IH Hrest). by rewrite string_app_assoc, string_app_cons.
Qed.

(** X13: for a video id without "v=", without ".wav" and not starting
    with "/", the output template handed to the downloader is the artifact
    path with its extension replaced by the placeholder:
    audio/<id>.%(ext)s for the artifact audio/<id>.wav. *)
Theorem outtmpl_matches_audio_path (vid : string) :
  Py.contains "v=" vid = false ->
  Py.startswith vid "/" = false ->
  Py.contains ".wav" vid = false ->
  audio_path (watch_url vid) = "audio/" +:+ vid +:+ ".wav" /\
  outtmpl (ydl_opts (watch_url vid)) = "audio/" +:+ vid +:+ ".%(ext)s".
Proof.
  intros Hv Hslash Hwav.
  assert (Hpath : audio_path (watch_url vid) = "audio/" +:+ vid +:+ ".wav").
  { assert (Hid : local_video_id (watch_url vid) = vid)
      by (unfold local_video_id; by rewrite (split_watch_url _ Hv)).
    unfold audio_path. rewrite Hid. unfold Py.os_path_join.
    replace (Py.startswith (vid +:+ ".wav") "/") with false; [reflexivity|].
    unfold Py.startswith in *. destruct vid; [reflexivity|].
    rewrite string_app_cons, (prefix_single_head _ _ _ vid). by symmetry. }
  split; [exact Hpath|].
  unfold ydl_opts. cbn [outtmpl]. rewrite Hpath. unfold Py.replace, Py.split.
  rewrite !string_app_cons, string_app_nil_l. cbn [Py.split_from].
  rewrite !prefix_head_ne by discriminate.
  rewrite (split_wav_suffix _ Hwav). cbn [Py.join].
  rewrite !string_app_assoc. reflexivity.
Qed.

(** ** The further properties on the concrete worlds *)

Lemma transcribe_audio_model_outcome_witness :
  transcribe_audio (demo_world []) (watch_url "captionsOff") s0
  = (Ret "parliament convenes today",
     mkState tt [EnterTranscribeAudio (watch_url "captionsOff");
                 Download (ydl_opts (watch_url "captionsOff")) [watch_url "captionsOff"];
                 WhisperTranscribe "audio/captionsOff.wav" "translate" false]).
Proof.
  exact (transcribe_audio_model_outcome (demo_world []) (watch_url "captionsOff") s0 tt
           (Ret "parliament convenes today") tt eq_refl eq_refl eq_refl).
Defined.

Lemma transcribe_audio_model_call_iff_witness :
  transcribe_audio broken_world (watch_url "captionsOff") s0
  = (Raise (OtherException "DownloadError" "video unavailable"),
     mkState tt [EnterTranscribeAudio (watch_url "captionsOff");
                 Download (ydl_opts (watch_url "captionsOff")) [watch_url "captionsOff"]]).
Proof.
  exact (proj2 (transcribe_audio_model_call_iff broken_world (watch_url "captionsOff") s0
                  (Raise (OtherException "DownloadError" "video unavailable")) tt eq_refl)
           _ eq_refl).
Defined.

Lemma normalize_text_error_provenance_witness :
  exists e1,
    detect broken_world "hello" (env s0)
    = (Raise (OtherException "LangDetectException" "No features in text."), e1).
Proof.
  destruct (normalize_text_error_provenance broken_world "hello" s0
              (OtherException "LangDetectException" "No features in text.")
              (mkState tt [Detect "hello"]) eq_refl)
    as [Hdet | (e1 & e2 & Hdet & _)].
  - exact Hdet.
  - discriminate Hdet.
Defined.

Lemma process_video_audio_path_witness :
  process_video (demo_world []) [] (candidate "captionsOff") s0
  = (Ret [result_record (candidate "captionsOff") "parliament convenes today"],
     mkState tt
       [ListTranscripts "captionsOff"; Stdout "No captions found";
        EnterTranscribeAudio (watch_url "captionsOff");
        Download (ydl_opts (watch_url "captionsOff")) [watch_url "captionsOff"];
        WhisperTranscribe "audio/captionsOff.wav" "translate" false;
        Stdout (fallback_message (watch_url "captionsOff"));
        Detect "parliament convenes today"]).
Proof.
  refine (process_video_audio_path (demo_world []) [] (candidate "captionsOff") s0 None
            (mkState tt [ListTranscripts "captionsOff"; Stdout "No captions found"])
            tt "parliament convenes today" tt "en" tt _ eq_refl eq_refl eq_refl eq_refl
            eq_refl _).
  - vm_compute. reflexivity.
  - discriminate.
Defined.

Lemma process_video_caption_path_translated_witness :
  process_video (demo_world []) [] (candidate "siManual") s0
  = (Ret [result_record (candidate "siManual") "[en] a b c"],
     mkState tt [ListTranscripts "siManual"; Stdout "transcripts";
                 Fetch (track "siManual" "si" false);
                 Detect "a b c"; Translate "si" "en" "a b c"]).
Proof.
  refine (process_video_caption_path_translated (demo_world []) [] (candidate "siManual") s0
            [ {| seg_text := "a" |}; {| seg_text := "b" |}; {| seg_text := "c" |} ]
            (mkState tt [ListTranscripts "siManual"; Stdout "transcripts";
                         Fetch (track "siManual" "si" false)])
            tt "[en] a b c" tt _ _ eq_refl eq_refl).
  - vm_compute. reflexivity.
  - discriminate.
Defined.

Lemma run_pipeline_no_candidates_witness :
  run_pipeline (demo_world []) s0
  = (Ret tt, mkState tt [SearchExecute; JsonDump OUTPUT_FILE []; Stdout DONE_MESSAGE]).
Proof.
  exact (run_pipeline_no_candidates (demo_world []) s0 tt tt eq_refl eq_refl).
Defined.

Lemma run_pipeline_events_witness :
  exists new,
    trace (run_pipeline (demo_world [candidate "siManual"; candidate "captionsOff"]) s0).2
    = trace s0 ++ SearchExecute :: new /\
    Forall (fun ev =>
              (exists v, In v [candidate "siManual"; candidate "captionsOff"] /\
                         loop_body_event v ev) \/
              (exists results, ev = JsonDump OUTPUT_FILE results) \/
              ev = Stdout DONE_MESSAGE) new.
Proof.
  exact (run_pipeline_events (demo_world [candidate "siManual"; candidate "captionsOff"])
           s0 [candidate "siManual"; candidate "captionsOff"] tt eq_refl).
Defined.


Lemma outtmpl_matches_audio_path_witness :
  audio_path (watch_url "dQw4w9WgXcQ") = "audio/dQw4w9WgXcQ.wav" /\
  outtmpl (ydl_opts (watch_url "dQw4w9WgXcQ")) = "audio/dQw4w9WgXcQ.%(ext)s".
Proof.
  exact (outtmpl_matches_audio_path "dQw4w9WgXcQ" eq_refl eq_refl eq_refl).
Defined.

(** An id that holds ".wav" gets every occurrence replaced in the
    template. *)
Example outtmpl_of_id_with_wav :
  audio_path (watch_url "a.wavb") = "audio/a.wavb.wav" /\
  outtmpl (ydl_opts (watch_url "a.wavb")) = "audio/a.%(ext)sb.%(ext)s".
Proof. split; reflexivity. Qed.
